(** * SEO analysis tool: metric extraction, competitor discovery, content
      fetching and report prompts

    A shallow embedding of the decision logic of [app.py],
    [utilities/compare_pages.py] and [utilities/lightHTMLsum.py], and the
    properties of it that the specification states.

    Conventions of the embedding.
    - A Python [str] is a [string]: a sequence of characters with code
      points below 256.  In that range the characters matched by the
      regular-expression class [\d] are exactly ['0'..'9'], and the
      characters removed by [str.strip()] are those of [is_space].
    - A value that may be [None] is an [option]; [truthy] is Python's
      truth test on such a value.
    - A [float] obtained as [score / 100] is represented by the rational
      it rounds: true division of integers is correctly rounded, rounding
      is monotone and 0.0 and 1.0 are floats, so comparisons with 0.0 and
      1.0 are those of the rational.  The division raises [OverflowError]
      exactly when the quotient rounds to 2^1024 or more.
    - External calls (reading an API key, HTTP requests, the generative
      model, [print]) are the nodes of a finite interaction tree [prog];
      [run] plays a tree against a [world] and records its events.  The
      [st.error] banners of [extract_metrics] are user-interface output and
      are left out.
    - Library code is taken as given: the HTML parser (which may reject a
      markup with an exception), the serializer of a tag and the URL quoting
      are parameters; [find_all], [find] and [get_text] are modelled on the
      parsed tree. *)

From Stdlib Require Import ZArith QArith String Ascii List Bool Lia.
From Stdlib Require Floats Uint63 DecimalString.
From stdpp Require Import gmap strings.
Import ListNotations.

Local Open Scope string_scope.

(** stdpp keeps [simpl] from unfolding string concatenation; the proofs
    below compute with it. *)
#[local] Arguments String.append !s1 s2 : simpl nomatch.

(** ** Python values and strings *)

Module Py.

(** The exceptions the embedded code can meet. *)
Inductive exn : Type :=
| ValueError
| OverflowError
| KeyError (key : string)
| IndexError
| ExternalError (msg : string).

(** Truth value of [None] or a string. *)
Definition truthy (v : option string) : bool :=
  match v with
  | None => false
  | Some EmptyString => false
  | Some (String _ _) => true
  end.

Definition newline : string := String (ascii_of_nat 10) EmptyString.

(** [s.startswith(p)] *)
Fixpoint startswith (p s : string) : bool :=
  match p, s with
  | EmptyString, _ => true
  | String a p', String b s' => if Ascii.eqb a b then startswith p' s' else false
  | String _ _, EmptyString => false
  end.

(** [s] begins with [p]; [sub] occurs somewhere in [s]. *)
Definition prefix_of (p s : string) : Prop := exists t, s = p ++ t.

Definition substring_of (sub s : string) : Prop :=
  exists pre post, s = pre ++ sub ++ post.

(** [s.find(sub)]: the lowest index at which [sub] occurs in [s], or -1. *)
Fixpoint find_from (sub s : string) (i : Z) : Z :=
  if startswith sub s then i
  else match s with
       | EmptyString => (-1)%Z
       | String _ s' => find_from sub s' (i + 1)%Z
       end.

Definition find (s sub : string) : Z := find_from sub s 0%Z.

(** [sub in s] *)
Definition contains (sub s : string) : bool := negb (find s sub =? -1)%Z.

(** The characters matched by [\d]. *)
Definition is_digit (c : ascii) : bool :=
  (48 <=? nat_of_ascii c)%nat && (nat_of_ascii c <=? 57)%nat.

Fixpoint all_digits (s : string) : bool :=
  match s with
  | EmptyString => true
  | String c s' => is_digit c && all_digits s'
  end.

Definition digit_value (c : ascii) : Z := (Z.of_nat (nat_of_ascii c) - 48)%Z.

(** Value of a decimal digit string, most significant digit first. *)
Fixpoint decimal_from (acc : Z) (s : string) : Z :=
  match s with
  | EmptyString => acc
  | String c s' => decimal_from (10 * acc + digit_value c)%Z s'
  end.

Definition decimal (s : string) : Z := decimal_from 0%Z s.

(** [int(s)] for a string of decimal digits, which is what group 1 of
    the patterns below holds.  [max_str_digits] is the interpreter's
    [sys.int_max_str_digits]: 0 switches the check off, and the check is
    only made above 640 digits.  Strings that are not digit runs are given
    [ValueError] here. *)
Definition int_of_digits (max_str_digits : nat) (s : string) : exn + Z :=
  if negb (all_digits s) || (String.length s =? 0)%nat then inl ValueError
  else if (640 <? String.length s)%nat && (0 <? max_str_digits)%nat
          && (max_str_digits <? String.length s)%nat
       then inl ValueError
       else inr (decimal s).

(** Quotients that round to 2^1024 or beyond do not fit a float. *)
Definition float_overflow_bound : Z := (2 ^ 1024 - 2 ^ 970)%Z.

(** [n / 100] (true division of an integer by 100). *)
Definition truediv_100 (n : Z) : exn + Q :=
  if (100 * float_overflow_bound <=? n)%Z then inl OverflowError
  else inr (n # 100).

End Py.

(** ** Regular-expression search for the score patterns *)

Module Re.
Import Py.

(** [match_here lit s]: the pattern [(\d+)] followed by the literal [lit],
    anchored at the head of [s]; the result is group 1.  The digit run is
    greedy: it is extended first, and cut where it stands only when the
    longer attempts fail. *)
Fixpoint match_here (lit s : string) : option string :=
  match s with
  | EmptyString => None
  | String c s' =>
      if is_digit c then
        match match_here lit s' with
        | Some g => Some (String c g)
        | None => if startswith lit s' then Some (String c EmptyString) else None
        end
      else None
  end.

(** [re.search]: the match at the leftmost position that has one. *)
Fixpoint search (lit s : string) : option string :=
  match match_here lit s with
  | Some g => Some g
  | None => match s with
            | EmptyString => None
            | String _ s' => search lit s'
            end
  end.

(** An occurrence of "<integer><lit>" in [text] after the prefix [pre]. *)
Definition occurs_at (lit text pre ds : string) : Prop :=
  ds <> EmptyString /\ all_digits ds = true /\
  exists post, text = pre ++ ds ++ lit ++ post.

Definition first_occurrence (lit text ds : string) : Prop :=
  exists pre, occurs_at lit text pre ds /\
    forall pre' ds', occurs_at lit text pre' ds' ->
      (String.length pre <= String.length pre')%nat.

Definition no_occurrence (lit text : string) : Prop :=
  forall pre ds, ~ occurs_at lit text pre ds.

(** A literal whose first character is not a digit, as every label is. *)
Definition starts_plain (lit : string) : Prop :=
  exists c rest, lit = String c rest /\ is_digit c = false.

End Re.

(** ** Metric extraction ([app.py]) *)

Module Metrics.
Import Py.

Definition metric_names : list string :=
  ["Performance"; "Accessibility"; "Best Practices"; "SEO"].

(** The literal that follows [(\d+)] in the pattern of a metric. *)
Definition label (metric : string) : string := newline ++ metric.

(** [patterns.items()], in insertion order: each metric with the literal
    part of its pattern [(\d+)\n<metric>]. *)
Definition patterns : list (string * string) :=
  map (fun m => (m, label m)) metric_names.

Definition all_zero : gmap string Q :=
  <["SEO" := 0%Q]> (<["Best Practices" := 0%Q]>
    (<["Accessibility" := 0%Q]> (<["Performance" := 0%Q]> ∅))).

Section WithLimit.
(** [sys.int_max_str_digits] of the interpreter. *)
Variable max_str_digits : nat.

(** [int(match.group(1)) / 100] *)
Definition score_of (g : string) : exn + Q :=
  match int_of_digits max_str_digits g with
  | inl e => inl e
  | inr score => truediv_100 score
  end.

(** The body of the [try]: the loop over [patterns.items()]. *)
Fixpoint scan (text : string) (ps : list (string * string))
    (metrics : gmap string Q) : exn + gmap string Q :=
  match ps with
  | [] => inr metrics
  | (metric, lit) :: ps' =>
      match Re.search lit text with
      | Some g =>
          match score_of g with
          | inl e => inl e
          | inr v => scan text ps' (<[metric := v]> metrics)
          end
      | None => scan text ps' (<[metric := 0%Q]> metrics)
      end
  end.

Definition extract_metrics (text : option string) : gmap string Q :=
  if negb (truthy text) then ∅
  else
    match scan (default EmptyString text) patterns ∅ with
    | inr metrics => metrics
    | inl _ => all_zero
    end.

(** What one turn of the loop stores for a pattern. *)
Definition entry (text lit : string) : exn + Q :=
  match Re.search lit text with
  | Some g => score_of g
  | None => inr 0%Q
  end.

End WithLimit.

Definition metric_keys : gset string := list_to_set metric_names.

(** Every integer the scan picks up can be converted: [int] accepts its
    digits and the quotient by 100 fits a float. *)
Definition converts (max_str_digits : nat) (text : string) : Prop :=
  forall metric ds,
    In metric metric_names -> Re.first_occurrence (label metric) text ds ->
    exists q, score_of max_str_digits ds = inr q.

(** The extraction property for every text, with no condition on the
    integers. *)
Definition scores_every_text (max_str_digits : nat) : Prop :=
  forall text : string,
    (exists metric ds,
        In metric metric_names /\ Re.first_occurrence (label metric) text ds) ->
    forall metric, In metric metric_names ->
      (forall ds, Re.first_occurrence (label metric) text ds ->
         extract_metrics max_str_digits (Some text) !! metric
         = Some (decimal ds # 100)) /\
      (Re.no_occurrence (label metric) text ->
         extract_metrics max_str_digits (Some text) !! metric = Some 0%Q).

(** The range property for every text. *)
Definition fractions_every_text : Prop :=
  forall (max_str_digits : nat) (text : option string) (metric : string) (v : Q),
    extract_metrics max_str_digits text !! metric = Some v ->
    (0 <= v)%Q /\ (v <= 1)%Q.

Fixpoint zeros (n : nat) : string :=
  match n with
  | O => EmptyString
  | S n' => String "0" (zeros n')
  end.

(** A report whose performance score is 10^400. *)
Definition huge_score : string := String "1" (zeros 400).

Definition overflowing_text : string := huge_score ++ label "Performance".

(** The report of the specification's example: 85 for Performance, 92 for
    Accessibility, nothing for the other two. *)
Definition sample_text : string :=
  "85" ++ label "Performance" ++ newline ++ "..." ++ newline
  ++ "92" ++ label "Accessibility".

End Metrics.

(** ** Parsed HTML (what the code reads of a BeautifulSoup tree) *)

Module Soup.
Import Py.

(** A node of the parse tree: a text string, a string that [get_text]
    leaves out (comment, doctype, ...), or a tag with its class tokens,
    its [href] attribute and its children. *)
#[local] Set Warnings "-register-all".

Inductive node : Type :=
| Text (s : string)
| Hidden (s : string)
| Element (name : string) (classes : list string) (href : option string)
          (children : list node).

(** All nodes below [n], in document order. *)
Fixpoint descendants (n : node) : list node :=
  match n with
  | Element _ _ _ children => flat_map (fun c => c :: descendants c) children
  | _ => []
  end.

(** All nodes of a document given by its top-level nodes. *)
Definition nodes (doc : list node) : list node :=
  flat_map (fun c => c :: descendants c) doc.

Definition mem (x : string) (l : list string) : bool := existsb (String.eqb x) l.

(** The test of [find_all(names, class_=wanted)]: a tag whose name is one
    of [names] and, when classes are asked for, one of whose class tokens
    is among them. *)
Definition selects (names : list string) (wanted : option (list string))
    (n : node) : bool :=
  match n with
  | Element name classes _ _ =>
      mem name names &&
      match wanted with
      | None => true
      | Some ws => existsb (fun c => mem c ws) classes
      end
  | _ => false
  end.

(** [soup.find_all(names, class_=wanted)] *)
Definition find_all (names : list string) (wanted : option (list string))
    (doc : list node) : list node :=
  List.filter (selects names wanted) (nodes doc).

(** [tag.find(name, class_=wanted)]: the first match below [tag]. *)
Definition find_in (names : list string) (wanted : option (list string))
    (tag : node) : option node :=
  head (List.filter (selects names wanted) (descendants tag)).

(** [tag.get('href')] *)
Definition get_href (tag : node) : option string :=
  match tag with
  | Element _ _ h _ => h
  | _ => None
  end.

(** The text strings of a node, in document order. *)
Fixpoint strings (n : node) : list string :=
  match n with
  | Text s => [s]
  | Hidden _ => []
  | Element _ _ _ children => flat_map strings children
  end.

Fixpoint concat_strings (l : list string) : string :=
  match l with
  | [] => EmptyString
  | x :: l' => x ++ concat_strings l'
  end.

(** [tag.text] *)
Definition text (n : node) : string := concat_strings (strings n).

(** Whitespace in the sense of [str.strip()]. *)
Definition is_space (c : ascii) : bool :=
  let n := nat_of_ascii c in
  ((9 <=? n) && (n <=? 13) || (28 <=? n) && (n <=? 32)
   || (n =? 133) || (n =? 160))%nat.

Fixpoint lstrip (s : string) : string :=
  match s with
  | EmptyString => EmptyString
  | String c s' => if is_space c then lstrip s' else s
  end.

Fixpoint rstrip (s : string) : string :=
  match s with
  | EmptyString => EmptyString
  | String c s' =>
      match rstrip s' with
      | EmptyString => if is_space c then EmptyString else String c EmptyString
      | r => String c r
      end
  end.

Definition strip (s : string) : string := rstrip (lstrip s).

Definition nonempty (s : string) : bool :=
  match s with EmptyString => false | _ => true end.

(** [tag.get_text(strip=True)]: every text string stripped, the empty
    ones dropped, the rest concatenated. *)
Definition get_text_strip (n : node) : string :=
  concat_strings (List.filter nonempty (map strip (strings n))).

(** [sep.join(l)] *)
Fixpoint join (sep : string) (l : list string) : string :=
  match l with
  | [] => EmptyString
  | [x] => x
  | x :: l' => x ++ sep ++ join sep l'
  end.

End Soup.

(** ** External calls *)

Module IO.
Import Py.

(** The JSON body and bearer token of a request to the scraping proxy. *)
Record request : Type := Request {
  api_url : string;
  bearer : string;
  zone : string;
  target : string;
  format : string
}.

Record response : Type := Response {
  status_code : Z;
  body : string
}.

(** A piece of a formatted diagnostic line. *)
Inductive fragment : Type :=
| Str (s : string)
| Exc (e : exn)
| Num (z : Z).

(** A computation that may read an API key, post to the proxy, send one
    message in a fresh chat of the generative model, and print. *)
Inductive prog (A : Type) : Type :=
| Ret (a : A)
| GetApiKey (key_name : string) (k : exn + string -> prog A)
| Post (r : request) (k : exn + response -> prog A)
| SendMessage (prompt : string) (k : exn + string -> prog A)
| Print (msg : list fragment) (k : prog A).

Arguments Ret {A} a.
Arguments GetApiKey {A} key_name k.
Arguments Post {A} r k.
Arguments SendMessage {A} prompt k.
Arguments Print {A} msg k.

Fixpoint bind {A B : Type} (p : prog A) (f : A -> prog B) : prog B :=
  match p with
  | Ret a => f a
  | GetApiKey n k => GetApiKey n (fun x => bind (k x) f)
  | Post r k => Post r (fun x => bind (k x) f)
  | SendMessage m k => SendMessage m (fun x => bind (k x) f)
  | Print m k => Print m (bind k f)
  end.

Inductive event : Type :=
| EvGetApiKey (key_name : string)
| EvPost (r : request)
| EvSendMessage (prompt : string)
| EvPrint (msg : list fragment).

(** The outside world: each answer may depend on everything that
    happened before. *)
Record world : Type := World {
  secrets : list event -> string -> exn + string;
  http : list event -> request -> exn + response;
  gemini : list event -> string -> exn + string
}.

Fixpoint run_from {A : Type} (w : world) (p : prog A) (past : list event)
    : list event * A :=
  match p with
  | Ret a => (past, a)
  | GetApiKey n k => run_from w (k (secrets w past n)) (past ++ [EvGetApiKey n])
  | Post r k => run_from w (k (http w past r)) (past ++ [EvPost r])
  | SendMessage m k => run_from w (k (gemini w past m)) (past ++ [EvSendMessage m])
  | Print m k => run_from w k (past ++ [EvPrint m])
  end.

(** The events of a run, in order, and its result. *)
Definition run {A : Type} (w : world) (p : prog A) : list event * A :=
  run_from w p [].

(** A world in which every call succeeds with the same answer. *)
Definition steady (key : string) (r : response) (reply : string) : world :=
  {| secrets := fun _ _ => inr key;
     http := fun _ _ => inr r;
     gemini := fun _ _ => inr reply |}.

(** The URLs a run asked the proxy to fetch. *)
Definition fetched (tr : list event) : list string :=
  flat_map (fun e => match e with EvPost r => [target r] | _ => [] end) tr.

End IO.

(** ** Competitor discovery and content fetching
       ([utilities/compare_pages.py]) *)

Module Pages.
Import Py Soup IO.

(** One entry of [search_results]. *)
Record result_data : Type := ResultData {
  link : string;
  position : Z;
  title : option string;
  description : option string
}.

(** The link test of [get_top_competitor]:
    [link and link.find('https') != -1 and link.find('http') == 0
     and link.find('aclk') == -1]. *)
Definition valid_link (link : option string) : bool :=
  truthy link &&
  let l := default EmptyString link in
  negb (find l "https" =? -1)%Z && (find l "http" =? 0)%Z
  && (find l "aclk" =? -1)%Z.

(** The loop over [all_data]: [position] and [search_results] are the
    loop's two variables.  A block with no anchor is skipped; the title
    and the description are [None] when their tag is missing. *)
Fixpoint collect (all_data : list node) (position : Z)
    (search_results : list result_data) : list result_data :=
  match all_data with
  | [] => search_results
  | result :: rest =>
      match find_in ["a"] None result with
      | None => collect rest position search_results
      | Some link_element =>
          let link := get_href link_element in
          if valid_link link then
            let position := (position + 1)%Z in
            let result_data :=
              {| link := default EmptyString link;
                 position := position;
                 title := option_map text (find_in ["h3"] (Some ["DKV0Md"]) result);
                 description :=
                   option_map text (find_in ["div"] (Some ["VwiC3b"]) result) |} in
            collect rest position (search_results ++ [result_data])
          else collect rest position search_results
      end
  end.

(** The final loop: the first result whose link does not contain
    [our_domain]. *)
Fixpoint first_foreign (our_domain : string) (search_results : list result_data)
    : option string :=
  match search_results with
  | [] => None
  | result :: rest =>
      if negb (contains our_domain (link result)) then Some (link result)
      else first_foreign our_domain rest
  end.

(** The [href] of the first anchor of a result block. *)
Definition anchor_href (result : node) : option string :=
  match find_in ["a"] None result with
  | Some link_element => get_href link_element
  | None => None
  end.

(** The three conditions on a link that the specification lists. *)
Definition accepted (l : string) : Prop :=
  substring_of "https" l /\ prefix_of "http" l /\ ~ substring_of "aclk" l.

(** The scheme test at the head of [fetch_html_content]. *)
Definition with_scheme (url : string) : string :=
  if negb (startswith "http://" url || startswith "https://" url)
  then "https://" ++ url
  else url.

(** [our_url.split('/')]: the pieces between the slashes. *)
Fixpoint split_slash (s : string) : list string :=
  match s with
  | EmptyString => [EmptyString]
  | String c s' =>
      if Ascii.eqb c "/" then EmptyString :: split_slash s'
      else match split_slash s' with
           | piece :: pieces => String c piece :: pieces
           | [] => [String c EmptyString]
           end
  end.

(** [l[i]], which raises [IndexError] out of range. *)
Definition getitem (l : list string) (i : nat) : exn + string :=
  match nth_error l i with
  | Some x => inr x
  | None => inl IndexError
  end.

(** The domain expression of [compare_articles]. *)
Definition domain_of (our_url : string) : exn + string :=
  if contains "//" our_url then getitem (split_slash our_url) 2
  else getitem (split_slash our_url) 0.

Definition nl : string := newline.
Definition indent : string := "        ".

(** The prompt of [compare_articles]. *)
Definition comparison_prompt (main_keyword our_content competitor_content : string)
    : string :=
  "Conduct a comprehensive SEO content analysis comparing two articles:" ++ nl
  ++ nl
  ++ indent ++ "Target Keyword: " ++ main_keyword ++ nl
  ++ nl
  ++ indent ++ "Analysis Focus:" ++ nl
  ++ indent ++ "- Content structure and organization" ++ nl
  ++ indent ++ "- Semantic relevance and topic coverage" ++ nl
  ++ indent ++ "- User engagement potential" ++ nl
  ++ indent ++ "- Content optimization patterns" ++ nl
  ++ nl
  ++ indent ++ "Compare Article 1 (Reference) with Article 2 (Competitor) based on content quality metrics:" ++ nl
  ++ indent ++ "Article 1: " ++ our_content ++ nl
  ++ indent ++ "Article 2: " ++ competitor_content ++ nl
  ++ nl
  ++ indent ++ "Provide insights on:" ++ nl
  ++ indent ++ "1. Structural advantages/disadvantages" ++ nl
  ++ indent ++ "2. Content depth and comprehensiveness" ++ nl
  ++ indent ++ "3. User experience and readability" ++ nl
  ++ indent ++ "4. SEO optimization patterns" ++ nl
  ++ indent ++ "5. Strategic recommendations".

Definition brightdata : string := "https://api.brightdata.com/request".

(** The name under which the proxy's key is looked up. *)
Definition key_name : string := "BRIGHTDATA_API_KEY".

Section WithLibraries.
(** [BeautifulSoup(markup, 'html.parser')]: the top-level nodes of the
    parsed document, or the exception of a parser that rejects the markup. *)
Variable html_parser : string -> exn + list node.
(** [str(tag)]: the markup of a tag. *)
Variable markup : node -> string.
(** [requests.utils.quote] *)
Variable quote : string -> string.

(** The request of [get_top_competitor]: the Google search for the
    encoded keyword, through the zone of the SERP API. *)
Definition serp_request (encoded_keyword key : string) : request :=
  {| api_url := brightdata; bearer := key; zone := "serp_api1";
     target := "https://www.google.com/search?q=" ++ encoded_keyword;
     format := "raw" |}.

(** The request of the two content fetchers, through the zone of the web
    unlocker. *)
Definition unlocker_request (url key : string) : request :=
  {| api_url := brightdata; bearer := key; zone := "web_unlocker1";
     target := url; format := "raw" |}.

(** Lines 79-81: the markup of the headings and paragraphs. *)
Definition collected_html (soup : list node) : string :=
  concat_strings (map markup (find_all ["h1"; "h2"; "h3"; "p"] None soup)).

Definition fetch_html_content (url : string) : prog (string * option string) :=
  let url := with_scheme url in
  let failed e :=
    Print [Str "Error fetching HTML content from "; Str url; Str ": "; Exc e]
          (Ret (url, None)) in
  GetApiKey key_name (fun key =>
    match key with
    | inl e => failed e
    | inr key =>
        Post (unlocker_request url key)
          (fun r =>
             match r with
             | inl e => failed e
             | inr response =>
                 if (status_code response =? 200)%Z
                 then
                   match html_parser (body response) with
                   | inl e => failed e
                   | inr soup => Ret (url, Some (collected_html soup))
                   end
                 else Print [Str "Error from Brightdata API: ";
                             Num (status_code response)]
                            (Ret (url, None))
             end)
    end).

(** The [href] of the first anchor of each result block, in SERP order,
    for the blocks that have one. *)
Definition serp_links (soup : list node) : list string :=
  omap anchor_href (find_all ["div"] (Some ["g"]) soup).

(** Lines 128-175: the results of a SERP and the competitor chosen. *)
Definition search_results (soup : list node) : list result_data :=
  collect (find_all ["div"] (Some ["g"]) soup) 0 [].

Definition get_top_competitor (keyword our_domain : string)
    : prog (option string) :=
  let failed e :=
    Print [Str "Error in getting competitor: "; Exc e] (Ret None) in
  let encoded_keyword := quote keyword in
  GetApiKey key_name (fun key =>
    match key with
    | inl e => failed e
    | inr key =>
        Post (serp_request encoded_keyword key)
          (fun r =>
             match r with
             | inl e => failed e
             | inr response =>
                 if (status_code response =? 200)%Z
                 then
                   match html_parser (body response) with
                   | inl e => failed e
                   | inr soup =>
                       Ret (first_foreign our_domain (search_results soup))
                   end
                 else Ret None
             end)
    end).

(** Lines 212-219: the main text of a page. *)
Definition main_text (soup : list node) : string :=
  let main_content :=
    find_all ["main"; "article"; "div"] (Some ["content"; "main"; "body"]) soup in
  let main_content :=
    match main_content with
    | [] => find_all ["h1"; "h2"; "h3"; "p"] None soup
    | _ => main_content
    end in
  join " " (map get_text_strip main_content).

Definition fetch_page_content (url : string) : prog (option string) :=
  let failed e :=
    Print [Str "Error fetching "; Str url; Str ": "; Exc e] (Ret None) in
  GetApiKey key_name (fun key =>
    match key with
    | inl e => failed e
    | inr key =>
        Post (unlocker_request url key)
          (fun r =>
             match r with
             | inl e => failed e
             | inr response =>
                 if (status_code response =? 200)%Z
                 then
                   match html_parser (body response) with
                   | inl e => failed e
                   | inr soup => Ret (Some (main_text soup))
                   end
                 else Ret None
             end)
    end).

Definition compare_articles (our_url : string) (competitor_url : option string)
    (main_keyword : string) : prog (option string) :=
  let failed e :=
    Print [Str "Error in article comparison: "; Exc e] (Ret None) in
  match domain_of our_url with
  | inl e => failed e
  | inr our_domain =>
      if negb (truthy competitor_url)
      then Ret (Some "Could not find competitor URL")
      else
        bind (fetch_page_content our_url) (fun our_content =>
        bind (fetch_page_content (default EmptyString competitor_url))
             (fun competitor_content =>
          if negb (truthy our_content) || negb (truthy competitor_content)
          then Ret (Some "Error fetching page content")
          else
            SendMessage
              (comparison_prompt main_keyword
                 (default EmptyString our_content)
                 (default EmptyString competitor_content))
              (fun r =>
                 match r with
                 | inl e => failed e
                 | inr text => Ret (Some text)
                 end)))
  end.

End WithLibraries.

(** A result block as the SERP has them: a [div] of class [g] around an
    anchor. *)
Definition result_block (href : string) : node :=
  Element "div" ["g"] None [Element "a" [] (Some href) [Text "result"]].

(** A parser that answers every markup with the same document, and one
    that rejects every markup. *)
Definition fixed_parser (doc : list node) : string -> exn + list node :=
  fun _ => inr doc.

Definition rejecting_parser : string -> exn + list node :=
  fun _ => inl (ExternalError "ParserRejectedMarkup").

(** A SERP whose first result is an ad-click link, and the SERP of the
    specification's example. *)
Definition ad_serp : list node :=
  [result_block "https://www.googleadservices.com/pagead/aclk?sa=L";
   result_block "https://example.com/x";
   result_block "https://other.com/y"].

Definition example_serp : list node :=
  [result_block "https://example.com/x"; result_block "https://other.com/y"].

(** A page with a heading and a paragraph and no content container. *)
Definition plain_page : list node :=
  [Element "html" [] None
     [Element "body" [] None
        [Element "h1" [] None [Text "  Title "];
         Element "div" ["post"] None
           [Element "p" [] None
              [Text "Hello "; Element "b" [] None [Text " world"]; Hidden "note"]]]]].

End Pages.

(** ** Report synthesis ([utilities/lightHTMLsum.py]) *)

Module Report.
Import Py IO.

(** [s[:n]] *)
Fixpoint slice_to (n : nat) (s : string) : string :=
  match n, s with
  | S n', String c s' => String c (slice_to n' s')
  | _, _ => EmptyString
  end.

(** [data[key]], which raises [KeyError] when the key is missing. *)
Definition getitem (data : gmap string (option string)) (key : string)
    : exn + option string :=
  match data !! key with
  | Some v => inr v
  | None => inl (KeyError key)
  end.

(** [data.get(key, "")] *)
Definition get (data : gmap string (option string)) (key : string)
    : option string :=
  match data !! key with
  | Some v => v
  | None => Some EmptyString
  end.

(** A value as an f-string prints it. *)
Definition formatted (v : option string) : string :=
  match v with
  | Some s => s
  | None => "None"
  end.

Definition nl : string := newline.
Definition indent : string := "        ".

(** The prompt of [generate_ai_report]. *)
Definition report_prompt (website_url article_url lighthouse_data html : string)
    : string :=
  "Based on these data, generate a comprehensive SEO analysis report:" ++ nl
  ++ indent ++ nl
  ++ indent ++ "Website URL: " ++ website_url ++ nl
  ++ indent ++ "Article URL: " ++ article_url ++ nl
  ++ indent ++ nl
  ++ indent ++ "Lighthouse Summary:" ++ nl
  ++ indent ++ lighthouse_data ++ nl
  ++ indent ++ nl
  ++ indent ++ "Homepage HTML Sample:" ++ nl
  ++ indent ++ html ++ nl
  ++ indent ++ nl
  ++ indent ++ "Please focus on:" ++ nl
  ++ indent ++ "1. Performance metrics and their impact" ++ nl
  ++ indent ++ "2. Accessibility issues and recommendations" ++ nl
  ++ indent ++ "3. Best practices compliance" ++ nl
  ++ indent ++ "4. SEO optimization opportunities" ++ nl
  ++ indent ++ "5. Key areas for improvement" ++ nl
  ++ indent.

(** The result is the reply's text, or the exception the function lets
    through: it has no handler of its own. *)
Definition generate_ai_report (data : gmap string (option string))
    : prog (exn + string) :=
  match getitem data "lighthouse_data" with
  | inl e => Ret (inl e)
  | inr v =>
      let lighthouse_data := if truthy v then default EmptyString v else EmptyString in
      match getitem data "html_content" with
      | inl e => Ret (inl e)
      | inr h =>
          let html :=
            if truthy h then slice_to 3000 (default EmptyString h)
            else EmptyString in
          let website_url := get data "website_url" in
          let article_url := get data "article_url" in
          SendMessage
            (report_prompt (formatted website_url) (formatted article_url)
                           lighthouse_data html)
            (fun r => Ret r)
      end
  end.

(** The value under a key, absent when the key is missing or holds
    [None]. *)
Definition input (data : gmap string (option string)) (key : string)
    : option string :=
  match data !! key with
  | Some v => v
  | None => None
  end.

(** The property for every dictionary, whichever keys it holds: an absent
    input, missing or [None], is replaced by the empty string and the
    prompt is sent. *)
Definition empty_for_absent : Prop :=
  forall data : gmap string (option string),
    generate_ai_report data =
    SendMessage
      (report_prompt (formatted (get data "website_url"))
                     (formatted (get data "article_url"))
                     (default EmptyString (input data "lighthouse_data"))
                     (slice_to 3000
                        (default EmptyString (input data "html_content"))))
      (fun r => Ret r).

(** Input with no Lighthouse text and 3005 characters of HTML. *)
Definition sample_data : gmap string (option string) :=
  <["html_content" := Some (Metrics.zeros 3005)]>
    (<["lighthouse_data" := None]> ∅).

End Report.

(** ** The dashboard's own helpers ([app.py]) *)

Module App.
Import Py Pages.

(** No character of the string is a slash. *)
Fixpoint slash_free (s : string) : bool :=
  match s with
  | EmptyString => true
  | String c s' => negb (Ascii.eqb c "/") && slash_free s'
  end.

(** [s.count('/')] *)
Fixpoint count_slash (s : string) : nat :=
  match s with
  | EmptyString => O
  | String c s' => if Ascii.eqb c "/" then S (count_slash s') else count_slash s'
  end.

(** [extract_homepage_url]: [ValueError] for the empty URL; otherwise the
    first and third pieces around "//" when the URL contains "//", and the
    first piece when it does not. *)
Definition extract_homepage_url (article_url : string) : exn + string :=
  if negb (truthy (Some article_url)) then inl ValueError
  else
    let parts := split_slash article_url in
    if contains "//" article_url then
      match getitem parts 0 with
      | inl e => inl e
      | inr first =>
          match getitem parts 2 with
          | inl e => inl e
          | inr third => inr (first ++ "//" ++ third)
          end
      end
    else getitem parts 0.

(** Line 156: [article_url.split('/')[2]], the domain handed to
    [get_top_competitor]. *)
Definition domain_argument (article_url : string) : exn + string :=
  getitem (split_slash article_url) 2.

(** Lines 233-238: the dictionary handed to [generate_ai_report]; both
    Lighthouse reports are cut to their first 3000 characters. *)
Definition combined_data
    (mobile_report desktop_report html_content homepage_url article_url : string)
    : gmap string (option string) :=
  <["article_url" := Some article_url]>
    (<["website_url" := Some homepage_url]>
       (<["html_content" := Some html_content]>
          (<["lighthouse_data" :=
               Some ("MOBILE REPORT:" ++ newline ++ Report.slice_to 3000 mobile_report
                     ++ newline ++ newline
                     ++ "DESKTOP REPORT:" ++ newline
                     ++ Report.slice_to 3000 desktop_report)]> ∅))).

End App.

(** ** The percentage shown for a metric ([app.py], lines 178, 186 and
       268-275)

    Here the values are binary64 floats, as in the interpreter. *)

Module Display.

(** [float(n)] for an integer [0 <= n < 2^53], which it represents
    exactly. *)
Definition float_of_int (n : Z) : PrimFloat.float :=
  PrimFloat.of_uint63 (Uint63.of_Z n).

(** [int(x)]: truncation toward zero; nothing for an infinity or a NaN,
    where [int] raises. *)
Definition int_of_float (x : PrimFloat.float) : option Z :=
  match FloatOps.Prim2SF x with
  | SpecFloat.S754_zero _ => Some 0%Z
  | SpecFloat.S754_finite s m e =>
      let v := (if (0 <=? e)%Z then Z.pos m * 2 ^ e
                else Z.pos m / 2 ^ (- e))%Z in
      Some (if s then (- v)%Z else v)
  | _ => None
  end.

(** [score / 100] as [extract_metrics] stores it, for a score below 2^53. *)
Definition fraction (score : Z) : PrimFloat.float :=
  PrimFloat.div (float_of_int score) (float_of_int 100).

(** [int(value * 100)] *)
Definition percent (value : PrimFloat.float) : option Z :=
  int_of_float (PrimFloat.mul value (float_of_int 100)).

(** [f"{int(value * 100)}%"] *)
Definition percent_text (value : PrimFloat.float) : option string :=
  option_map
    (fun z => DecimalString.NilZero.string_of_int (Z.to_int z) ++ "%")
    (percent value).

(** The scores from 0 to 100. *)
Definition scores : list Z := map Z.of_nat (seq 0 101).

End Display.

(** ** Reading a trace *)

Module Trace.
Import IO.

(** The prompts a run sent to the generative model. *)
Definition sent (tr : list event) : list string :=
  flat_map (fun e => match e with EvSendMessage m => [m] | _ => [] end) tr.

(** The keys a run read. *)
Definition keys_read (tr : list event) : list string :=
  flat_map (fun e => match e with EvGetApiKey n => [n] | _ => [] end) tr.

(** The diagnostic lines a run printed. *)
Definition printed (tr : list event) : list (list fragment) :=
  flat_map (fun e => match e with EvPrint m => [m] | _ => [] end) tr.

End Trace.

(** ** The steps of a comparison *)

Module Steps.
Import Py IO Pages Trace.

(** One attempt and no more: the key is read once, at most one request is
    posted, and the generative model is not called. *)
Definition single_attempt (tr : list event) : Prop :=
  keys_read tr = [key_name] /\ (List.length (fetched tr) <= 1)%nat /\
  sent tr = [].

(** The run of the first fetch of [compare_articles], and the run of its
    second fetch, which starts where the first one ended. *)
Definition own_fetch (html_parser : string -> exn + list Soup.node) (w : world)
    (our_url : string) : list event * option string :=
  run_from w (fetch_page_content html_parser our_url) [].

Definition competitor_fetch (html_parser : string -> exn + list Soup.node)
    (w : world) (our_url competitor_url : string)
    : list event * option string :=
  run_from w (fetch_page_content html_parser competitor_url)
           (fst (own_fetch html_parser w our_url)).

(** A world whose key store always answers. *)
Definition keys_available (w : world) : Prop :=
  forall past name, exists key, secrets w past name = inr key.

End Steps.

(** * Properties *)

(** ** Strings *)

Module StringFacts.
Import Py.

Lemma append_assoc (a b c : string) : (a ++ b) ++ c = a ++ (b ++ c).
Proof. induction a as [|x a IH]; simpl; [reflexivity | now rewrite IH]. Qed.

Lemma append_nil_r (a : string) : a ++ EmptyString = a.
Proof. induction a as [|x a IH]; simpl; [reflexivity | now rewrite IH]. Qed.

Lemma length_append (a b : string) :
  String.length (a ++ b) = (String.length a + String.length b)%nat.
Proof. induction a as [|x a IH]; simpl; [reflexivity | now rewrite IH]. Qed.

(** Two splits of one string at the same offset are the same split. *)
Lemma append_eq_length (a a' b b' : string) :
  a ++ b = a' ++ b' -> String.length a = String.length a' ->
  a = a' /\ b = b'.
Proof.
  revert a'. induction a as [|x a IH]; intros [|y a'] E L; simpl in *;
    try discriminate.
  - auto.
  - injection E as -> E. injection L as L.
    destruct (IH _ E L) as [-> ->]. auto.
Qed.

Lemma startswith_spec (p s : string) :
  startswith p s = true <-> prefix_of p s.
Proof.
  unfold prefix_of. revert s. induction p as [|a p IH]; intros s; simpl.
  - split; [intros _; now exists s | reflexivity].
  - destruct s as [|b s].
    + split; [discriminate | intros [t E]; discriminate].
    + destruct (Ascii.eqb_spec a b) as [->|N].
      * rewrite IH. split; intros [t E]; exists t.
        -- now rewrite E.
        -- now injection E.
      * split; [discriminate | intros [t E]; simpl in E; congruence].
Qed.

Lemma find_from_range (sub s : string) (i : Z) :
  find_from sub s i = (-1)%Z \/ (i <= find_from sub s i)%Z.
Proof.
  revert i. induction s as [|c s IH]; intros i; simpl.
  - destruct (startswith sub EmptyString); [right; lia | now left].
  - destruct (startswith sub (String c s)); [right; lia |].
    destruct (IH (i + 1)%Z) as [E | E]; [now left | right; lia].
Qed.

Lemma find_from_none (sub s : string) (i : Z) :
  (0 <= i)%Z ->
  find_from sub s i = (-1)%Z <-> ~ substring_of sub s.
Proof.
  unfold substring_of. revert i. induction s as [|c s IH]; intros i Hi; simpl.
  - destruct (startswith sub EmptyString) eqn:P.
    + split; [lia |]. intros N. exfalso. apply N.
      apply startswith_spec in P. destruct P as [t E].
      exists EmptyString, t. exact E.
    + split; [| reflexivity]. intros _ (pre & post & E).
      destruct pre; [| discriminate]. simpl in E.
      assert (startswith sub EmptyString = true)
        by (apply startswith_spec; now exists post).
      congruence.
  - destruct (startswith sub (String c s)) eqn:P.
    + split; [lia |]. intros N. exfalso. apply N.
      apply startswith_spec in P. destruct P as [t E].
      exists EmptyString, t. exact E.
    + rewrite (IH (i + 1)%Z) by lia. split; intros N (pre & post & E); apply N.
      * destruct pre as [|x pre]; simpl in E.
        -- assert (startswith sub (String c s) = true)
             by (apply startswith_spec; now exists post).
           congruence.
        -- injection E as -> E. now exists pre, post.
      * exists (String c pre), post. simpl. now rewrite E.
Qed.

Lemma find_none (s sub : string) :
  find s sub = (-1)%Z <-> ~ substring_of sub s.
Proof. apply find_from_none. lia. Qed.

Lemma find_zero (s sub : string) :
  find s sub = 0%Z <-> prefix_of sub s.
Proof.
  rewrite <- startswith_spec. unfold find.
  destruct s as [|c s]; cbn [find_from];
    destruct (startswith sub _) eqn:P;
    try (split; reflexivity); try (split; [lia | discriminate]).
  split; [| discriminate].
  destruct (find_from_range sub s (0 + 1)) as [E | E]; lia.
Qed.

Lemma find_from_found (sub s : string) (i : Z) :
  find_from sub s i <> (-1)%Z -> substring_of sub s.
Proof.
  unfold substring_of. revert i.
  induction s as [|c s IH]; intros i; cbn [find_from];
    destruct (startswith sub _) eqn:P.
  - intros _. apply startswith_spec in P as [t E]. now exists EmptyString, t.
  - tauto.
  - intros _. apply startswith_spec in P as [t E]. now exists EmptyString, t.
  - intros N. destruct (IH _ N) as (pre & post & E).
    exists (String c pre), post. simpl. now rewrite E.
Qed.

Lemma contains_spec (sub s : string) :
  contains sub s = true <-> substring_of sub s.
Proof.
  unfold contains. rewrite negb_true_iff, Z.eqb_neq. split.
  - apply find_from_found.
  - intros H E. apply find_none in E. tauto.
Qed.

Lemma contains_false (sub s : string) :
  contains sub s = false <-> ~ substring_of sub s.
Proof.
  rewrite <- contains_spec. destruct (contains sub s); split; auto;
    try discriminate. intros N. exfalso. now apply N.
Qed.

End StringFacts.

(** ** The score search finds the first occurrence *)

Module ReFacts.
Import Py Re StringFacts.

Lemma match_here_sound (lit s g : string) :
  match_here lit s = Some g -> occurs_at lit s EmptyString g.
Proof.
  unfold occurs_at. revert g. induction s as [|c s IH]; intros g; simpl.
  - discriminate.
  - destruct (is_digit c) eqn:D; [| discriminate].
    destruct (match_here lit s) as [g'|].
    + intros [= <-]. destruct (IH g' eq_refl) as (_ & A & post & E).
      split; [discriminate |]. split; [simpl; now rewrite D, A |].
      exists post. simpl in *. now rewrite E.
    + destruct (startswith lit s) eqn:P; [| discriminate].
      intros [= <-]. apply startswith_spec in P as [t E].
      split; [discriminate |]. split; [simpl; now rewrite D |].
      exists t. simpl. now rewrite E.
Qed.

Lemma match_here_plain (lit post : string) :
  starts_plain lit -> match_here lit (lit ++ post) = None.
Proof. intros (c & rest & -> & D). simpl. now rewrite D. Qed.

Lemma match_here_complete (lit s g : string) :
  starts_plain lit ->
  occurs_at lit s EmptyString g -> match_here lit s = Some g.
Proof.
  intros L (N & A & post & E). simpl in E. subst s.
  induction g as [|c g IH]; [contradiction |].
  simpl in A. apply andb_true_iff in A as [D A]. simpl. rewrite D.
  destruct g as [|c' g].
  - simpl. rewrite (match_here_plain _ _ L).
    assert (startswith lit (lit ++ post) = true) as ->
      by (apply startswith_spec; now exists post).
    reflexivity.
  - now rewrite IH.
Qed.

Lemma occurs_at_cons (lit s pre ds : string) (c : ascii) :
  occurs_at lit s pre ds <-> occurs_at lit (String c s) (String c pre) ds.
Proof.
  unfold occurs_at. split; intros (N & A & post & E); repeat split; auto;
    exists post; simpl in *; congruence.
Qed.

Lemma occurs_at_head (lit s pre ds : string) (c : ascii) :
  occurs_at lit (String c s) pre ds ->
  pre = EmptyString \/ exists pre', pre = String c pre' /\ occurs_at lit s pre' ds.
Proof.
  intros (N & A & post & E). destruct pre as [|x pre]; [now left | right].
  simpl in E. injection E as <- E. exists pre. split; [reflexivity |].
  repeat split; auto. now exists post.
Qed.

Lemma occurs_at_empty (lit pre ds : string) : ~ occurs_at lit EmptyString pre ds.
Proof.
  intros (N & _ & post & E). destruct pre; [| discriminate].
  destruct ds; [contradiction | discriminate].
Qed.

(** What [search] returns is the integer of the first occurrence. *)
Lemma search_sound (lit s ds : string) :
  starts_plain lit -> search lit s = Some ds -> first_occurrence lit s ds.
Proof.
  intros L. revert ds.
  induction s as [|c s IH]; intros ds; cbn [search];
    destruct (match_here lit _) as [g|] eqn:M; try discriminate.
  - intros [= <-]. exists EmptyString.
    split; [now apply match_here_sound | intros; simpl; lia].
  - intros S. destruct (IH _ S) as (pre & O & Min).
    exists (String c pre). split; [now apply occurs_at_cons |].
    intros pre' ds' O'. destruct (occurs_at_head _ _ _ _ _ O') as [-> | (p & -> & O'')].
    + rewrite (match_here_complete _ _ _ L O') in M. discriminate.
    + simpl. apply Min in O''. lia.
Qed.

Lemma search_none (lit s : string) :
  starts_plain lit -> search lit s = None -> no_occurrence lit s.
Proof.
  intros L. unfold no_occurrence.
  induction s as [|c s IH]; cbn [search];
    destruct (match_here lit _) as [g|] eqn:M; try discriminate;
    intros S pre ds O.
  - now apply occurs_at_empty in O.
  - destruct (occurs_at_head _ _ _ _ _ O) as [-> | (p & -> & O')].
    + rewrite (match_here_complete _ _ _ L O) in M. discriminate.
    + exact (IH S _ _ O').
Qed.

Lemma first_occurrence_unique (lit s ds ds' : string) :
  starts_plain lit ->
  first_occurrence lit s ds -> first_occurrence lit s ds' -> ds = ds'.
Proof.
  intros L (pre & O & Min) (pre' & O' & Min').
  pose proof (Min _ _ O') as A. pose proof (Min' _ _ O) as B.
  destruct O as (N & D & post & E). destruct O' as (N' & D' & post' & E').
  assert (pre = pre' /\ ds ++ lit ++ post = ds' ++ lit ++ post') as [_ R]
    by (apply append_eq_length; [congruence | lia]).
  assert (match_here lit (ds ++ lit ++ post) = Some ds) as M
    by (apply match_here_complete; [assumption |];
        repeat split; auto; now exists post).
  assert (match_here lit (ds ++ lit ++ post) = Some ds') as M'
    by (apply match_here_complete; [assumption |];
        repeat split; auto; exists post'; exact R).
  congruence.
Qed.

(** [search] returns the integer of the first occurrence, when there is
    one, and nothing when there is none. *)
Lemma search_first (lit s ds : string) :
  starts_plain lit -> first_occurrence lit s ds -> search lit s = Some ds.
Proof.
  intros L F. destruct (search lit s) as [g|] eqn:S.
  - apply search_sound in S; [| assumption].
    f_equal. eapply first_occurrence_unique; eassumption.
  - apply search_none in S; [| assumption].
    destruct F as (pre & O & _). now apply S in O.
Qed.

Lemma search_absent (lit s : string) :
  starts_plain lit -> no_occurrence lit s -> search lit s = None.
Proof.
  intros L N. destruct (search lit s) as [g|] eqn:S; [| reflexivity].
  apply search_sound in S as (pre & O & _); [| assumption]. now apply N in O.
Qed.

End ReFacts.

(** ** Metric extraction *)

Module MetricsFacts.
Import Py Re Metrics StringFacts ReFacts.

Lemma label_plain (metric : string) : starts_plain (label metric).
Proof. exists (ascii_of_nat 10), metric. split; reflexivity. Qed.

Lemma in_patterns (metric lit : string) :
  In (metric, lit) patterns <-> In metric metric_names /\ lit = label metric.
Proof.
  unfold patterns. rewrite in_map_iff. split.
  - intros (m & [= <- <-] & I). auto.
  - intros (I & ->). now exists metric.
Qed.

Lemma digit_value_range (c : ascii) :
  is_digit c = true -> (0 <= digit_value c <= 9)%Z.
Proof.
  unfold is_digit, digit_value. rewrite andb_true_iff, !Nat.leb_le. lia.
Qed.

Lemma decimal_from_nonneg (s : string) (acc : Z) :
  all_digits s = true -> (0 <= acc)%Z -> (0 <= decimal_from acc s)%Z.
Proof.
  revert acc. induction s as [|c s IH]; intros acc A Hacc; simpl in *.
  - assumption.
  - apply andb_true_iff in A as [D A]. apply IH; [assumption |].
    pose proof (digit_value_range _ D). lia.
Qed.

(** A conversion that succeeds yields the integer over 100. *)
Lemma score_of_value (lim : nat) (g : string) (v : Q) :
  score_of lim g = inr v ->
  v = (decimal g # 100) /\ (0 <= decimal g)%Z.
Proof.
  unfold score_of, int_of_digits, truediv_100.
  destruct (all_digits g) eqn:A; simpl; [| discriminate].
  destruct (String.length g =? 0)%nat; [discriminate |].
  destruct (_ && _ && _); [discriminate |].
  destruct (_ <=? _)%Z; [discriminate |].
  intros [= <-]. split; [reflexivity |].
  apply decimal_from_nonneg; [assumption | lia].
Qed.

Lemma decimal_from_bound (s : string) (acc : Z) :
  all_digits s = true -> (0 <= acc)%Z ->
  (decimal_from acc s
   < (acc + 1) * 10 ^ Z.of_nat (String.length s))%Z.
Proof.
  revert acc. induction s as [|c s IH]; intros acc A Hacc.
  - simpl. lia.
  - simpl in A. apply andb_true_iff in A as [D A].
    pose proof (digit_value_range _ D) as R.
    cbn [decimal_from String.length].
    rewrite Nat2Z.inj_succ, Z.pow_succ_r by lia.
    specialize (IH (10 * acc + digit_value c)%Z A ltac:(lia)).
    assert (0 < 10 ^ Z.of_nat (String.length s))%Z by (apply Z.pow_pos_nonneg; lia).
    nia.
Qed.

(** An integer of at most 300 digits is converted, whatever the digit
    limit of the interpreter. *)
Lemma short_score_converts (lim : nat) (ds : string) :
  ds <> EmptyString -> all_digits ds = true ->
  (String.length ds <= 300)%nat ->
  score_of lim ds = inr (decimal ds # 100).
Proof.
  intros N A Len. unfold score_of, int_of_digits, truediv_100. rewrite A.
  destruct ds as [|c ds]; [contradiction |].
  replace (String.length (String c ds) =? 0)%nat with false by reflexivity.
  replace (640 <? String.length (String c ds))%nat with false
    by (symmetry; apply Nat.ltb_ge; lia).
  cbn [negb orb andb].
  pose proof (decimal_from_bound _ 0 A ltac:(lia)) as B. fold (decimal (String c ds)) in B.
  assert (10 ^ Z.of_nat (String.length (String c ds)) <= 10 ^ 300)%Z as P
    by (apply Z.pow_le_mono_r; lia).
  assert (10 ^ 300 < 100 * float_overflow_bound)%Z as F
    by (vm_compute; reflexivity).
  destruct (Z.leb_spec (100 * float_overflow_bound) (decimal (String c ds)));
    [lia | reflexivity].
Qed.

Section Scan.
Variable lim : nat.
Variable text : string.

Lemma scan_cons (metric lit : string) (ps : list (string * string))
    (m : gmap string Q) :
  scan lim text ((metric, lit) :: ps) m =
  match entry lim text lit with
  | inl e => inl e
  | inr v => scan lim text ps (<[metric := v]> m)
  end.
Proof. unfold entry. simpl. destruct (search lit text); reflexivity. Qed.

Lemma scan_inr (ps : list (string * string)) :
  List.NoDup (map fst ps) ->
  forall m0 m : gmap string Q,
    scan lim text ps m0 = inr m ->
    (forall metric lit, In (metric, lit) ps ->
       exists v, entry lim text lit = inr v /\ m !! metric = Some v) /\
    (forall k, ~ In k (map fst ps) -> m !! k = m0 !! k).
Proof.
  induction ps as [|[metric lit] ps IH]; intros ND m0 m.
  - simpl. intros [= <-]. split; [contradiction | reflexivity].
  - rewrite scan_cons. destruct (entry lim text lit) as [e|v] eqn:E;
      [discriminate |].
    simpl in ND. apply List.NoDup_cons_iff in ND as [Fresh ND]. intros S.
    destruct (IH ND _ _ S) as [Inside Outside]. split.
    + intros metric' lit' [[= <- <-] | I].
      * exists v. split; [assumption |].
        rewrite (Outside _ Fresh). apply lookup_insert_eq.
      * now apply Inside.
    + intros k N. simpl in N. rewrite Outside by tauto.
      apply lookup_insert_ne. tauto.
Qed.

Lemma scan_inl (ps : list (string * string)) :
  (exists metric lit e, In (metric, lit) ps /\ entry lim text lit = inl e) ->
  forall m0, exists e, scan lim text ps m0 = inl e.
Proof.
  induction ps as [|[metric lit] ps IH]; intros (metric' & lit' & e & I & E) m0.
  - contradiction.
  - rewrite scan_cons. destruct (entry lim text lit) as [e0|v] eqn:E0.
    + now exists e0.
    + destruct I as [[= -> ->] | I]; [congruence |].
      apply IH. now exists metric', lit', e.
Qed.

Lemma scan_total (ps : list (string * string)) :
  (forall metric lit, In (metric, lit) ps -> exists v, entry lim text lit = inr v) ->
  forall m0, exists m, scan lim text ps m0 = inr m.
Proof.
  induction ps as [|[metric lit] ps IH]; intros All m0.
  - now exists m0.
  - rewrite scan_cons. destruct (All metric lit) as [v ->]; [now left |].
    apply IH. intros metric' lit' I. apply (All metric' lit'). now right.
Qed.

Lemma entry_first (metric ds : string) :
  first_occurrence (label metric) text ds ->
  entry lim text (label metric) = score_of lim ds.
Proof.
  intros F. unfold entry. now rewrite (search_first _ _ _ (label_plain _) F).
Qed.

Lemma entry_absent (metric : string) :
  no_occurrence (label metric) text ->
  entry lim text (label metric) = inr 0%Q.
Proof.
  intros N. unfold entry. now rewrite (search_absent _ _ (label_plain _) N).
Qed.

End Scan.

Lemma patterns_nodup : List.NoDup (map fst patterns).
Proof. vm_compute. repeat constructor; simpl; intuition discriminate. Qed.

Lemma occurrence_truthy (lit text ds : string) :
  first_occurrence lit text ds -> truthy (Some text) = true.
Proof.
  intros (pre & (N & _ & post & E) & _). destruct text; [| reflexivity].
  destruct pre; [| discriminate]. destruct ds; [contradiction | discriminate].
Qed.

Lemma extract_metrics_truthy (lim : nat) (text : string) :
  truthy (Some text) = true ->
  extract_metrics lim (Some text) =
  match scan lim text patterns ∅ with
  | inr metrics => metrics
  | inl _ => all_zero
  end.
Proof. intros T. unfold extract_metrics. now rewrite T. Qed.

Lemma dom_all_zero : dom all_zero = metric_keys.
Proof.
  unfold all_zero, metric_keys, metric_names.
  rewrite !dom_insert_L, dom_empty_L. set_solver.
Qed.

Lemma elem_of_metric_keys (k : string) : k ∈ metric_keys <-> In k metric_names.
Proof. unfold metric_keys. rewrite elem_of_list_to_set. apply list_elem_of_In. Qed.

Lemma all_zero_lookup (metric : string) (v : Q) :
  all_zero !! metric = Some v -> v = 0%Q.
Proof.
  unfold all_zero. rewrite !lookup_insert.
  repeat case_decide; try congruence. rewrite lookup_empty. discriminate.
Qed.

Lemma all_zero_has (metric : string) :
  In metric metric_names -> all_zero !! metric = Some 0%Q.
Proof.
  unfold metric_names. simpl.
  intros [<- | [<- | [<- | [<- | []]]]]; reflexivity.
Qed.

(** With every conversion succeeding, each metric gets the integer of its
    first occurrence over 100, or 0 when it has none. *)
Lemma extract_metrics_converted (lim : nat) (text : string) :
  truthy (Some text) = true -> converts lim text ->
  exists m, scan lim text patterns ∅ = inr m /\
    extract_metrics lim (Some text) = m /\
    forall metric, In metric metric_names ->
      (forall ds, first_occurrence (label metric) text ds ->
         m !! metric = Some (decimal ds # 100)) /\
      (no_occurrence (label metric) text -> m !! metric = Some 0%Q).
Proof.
  intros T C.
  destruct (scan_total lim text patterns) with (m0 := (∅ : gmap string Q))
    as [m S].
  { intros metric lit I. apply in_patterns in I as [I ->]. unfold entry.
    destruct (search (label metric) text) as [g|] eqn:G; [| now exists 0%Q].
    apply (C metric g I). apply search_sound; [apply label_plain | exact G]. }
  exists m. split; [exact S |]. split.
  { rewrite extract_metrics_truthy by exact T. now rewrite S. }
  destruct (scan_inr lim text patterns patterns_nodup _ _ S) as [Inside _].
  intros metric I.
  destruct (Inside metric (label metric)) as (v & E & L);
    [apply in_patterns; auto |].
  split.
  - intros ds F. rewrite (entry_first lim text _ _ F) in E.
    apply score_of_value in E as [-> _]. exact L.
  - intros N. rewrite (entry_absent lim text _ N) in E. congruence.
Qed.

(** A conversion that raises sends the function to its handler. *)
Lemma extract_metrics_raised (lim : nat) (text : string) :
  (exists metric ds e,
      In metric metric_names /\ first_occurrence (label metric) text ds /\
      score_of lim ds = inl e) ->
  (exists e, scan lim text patterns ∅ = inl e) /\
  extract_metrics lim (Some text) = all_zero.
Proof.
  intros (metric & ds & e & I & F & E).
  destruct (scan_inl lim text patterns) with (m0 := (∅ : gmap string Q))
    as [e' S].
  { exists metric, (label metric), e. split; [apply in_patterns; auto |].
    now rewrite (entry_first lim text _ _ F). }
  split; [now exists e' |].
  rewrite extract_metrics_truthy by exact (occurrence_truthy _ _ _ F).
  now rewrite S.
Qed.

Lemma scan_keys (lim : nat) (text : string) (m : gmap string Q) :
  scan lim text patterns ∅ = inr m -> dom m = metric_keys.
Proof.
  intros S.
  destruct (scan_inr lim text patterns patterns_nodup _ _ S) as [Inside Outside].
  change (map fst patterns) with metric_names in Outside.
  apply set_eq. intros k. rewrite elem_of_dom, elem_of_metric_keys. split.
  - intros [v L]. destruct (in_dec string_dec k metric_names) as [I | N];
      [exact I |].
    rewrite (Outside _ N), lookup_empty in L. discriminate.
  - intros I. destruct (Inside k (label k)) as (v & _ & L);
      [apply in_patterns; auto |].
    now exists v.
Qed.

(** Every value of a completed scan is a conversion's result or 0. *)
Lemma scan_values (lim : nat) (text : string) (m : gmap string Q)
    (metric : string) (v : Q) :
  scan lim text patterns ∅ = inr m -> m !! metric = Some v ->
  v = 0%Q \/
  exists ds, first_occurrence (label metric) text ds /\ score_of lim ds = inr v.
Proof.
  intros S L.
  destruct (scan_inr lim text patterns patterns_nodup _ _ S) as [Inside Outside].
  change (map fst patterns) with metric_names in Outside.
  destruct (in_dec string_dec metric metric_names) as [I | N].
  - destruct (Inside metric (label metric)) as (v' & E & L');
      [apply in_patterns; auto |].
    assert (v' = v) as -> by congruence. unfold entry in E.
    destruct (search (label metric) text) as [g|] eqn:G.
    + right. exists g. split; [| exact E].
      apply search_sound; [apply label_plain | exact G].
    + left. congruence.
  - rewrite (Outside _ N), lookup_empty in L. discriminate.
Qed.

Lemma extract_metrics_falsy (lim : nat) (text : option string) :
  truthy text = false -> extract_metrics lim text = ∅.
Proof. intros T. unfold extract_metrics. now rewrite T. Qed.

Lemma empty_not_all_zero : (∅ : gmap string Q) <> all_zero.
Proof.
  intros E. apply (f_equal (fun m : gmap string Q => m !! "SEO")) in E.
  rewrite lookup_empty in E. unfold all_zero in E.
  rewrite lookup_insert_eq in E. discriminate.
Qed.

Lemma huge_score_overflows (lim : nat) : score_of lim huge_score = inl OverflowError.
Proof.
  unfold score_of, int_of_digits.
  assert (all_digits huge_score = true) as -> by (vm_compute; reflexivity).
  assert (String.length huge_score = 401%nat) as -> by (vm_compute; reflexivity).
  replace (640 <? 401)%nat with false by (vm_compute; reflexivity).
  cbn [negb orb andb Nat.eqb]. vm_compute. reflexivity.
Qed.

Lemma overflowing_first :
  first_occurrence (label "Performance") overflowing_text huge_score.
Proof. apply search_sound; [apply label_plain | vm_compute; reflexivity]. Qed.

Lemma overflow_refutes (lim : nat) : ~ scores_every_text lim.
Proof.
  intros H.
  assert (In "Performance" metric_names) as I by (simpl; auto).
  destruct (H overflowing_text) with (metric := "Performance") as [A _];
    [exists "Performance", huge_score; split;
       [exact I | exact overflowing_first]
    | exact I |].
  specialize (A _ overflowing_first).
  destruct (extract_metrics_raised lim overflowing_text) as [_ Z].
  { exists "Performance", huge_score, OverflowError.
    split; [exact I |]. split; [exact overflowing_first |].
    apply huge_score_overflows. }
  rewrite Z, (all_zero_has _ I) in A.
  apply (f_equal (fun o : option Q =>
                    match o with Some q => Qnum q | None => 0%Z end)) in A.
  cbv beta iota delta [Qnum] in A.
  assert (0 < decimal huge_score)%Z by (vm_compute; reflexivity). lia.
Qed.

(** The mapping of the specification's example. *)
Example extract_metrics_sample :
  extract_metrics 4300 (Some sample_text) =
  <["SEO" := 0%Q]> (<["Best Practices" := 0%Q]>
    (<["Accessibility" := 92 # 100]> (<["Performance" := 85 # 100]> ∅))).
Proof. vm_compute. reflexivity. Qed.

Lemma sample_first_performance :
  first_occurrence (label "Performance") sample_text "85".
Proof. apply search_sound; [apply label_plain | vm_compute; reflexivity]. Defined.

Lemma sample_no_seo : no_occurrence (label "SEO") sample_text.
Proof. apply search_none; [apply label_plain | vm_compute; reflexivity]. Defined.

Lemma sample_converts : converts 4300 sample_text.
Proof.
  intros metric ds I F. apply search_first in F; [| apply label_plain].
  simpl in I. destruct I as [<- | [<- | [<- | [<- | []]]]];
    vm_compute in F; try discriminate; injection F as <-;
    eexists; vm_compute; reflexivity.
Defined.

End MetricsFacts.

Module MetricsClaims.
Import Py Re Metrics StringFacts ReFacts MetricsFacts.

(** C1 (amended).  For every text that contains an occurrence of
    "<integer>\n<MetricName>" for one of the four metric names: when every
    integer picked up can be converted (its digits are within the limit of
    [int] and its quotient by 100 fits a float), [extract_metrics] maps each
    metric name to the integer of the first occurrence of its pattern divided
    by 100, and each metric name whose pattern does not occur to 0.0; when
    the conversion of one of them raises, the handler returns all four
    metrics at 0.0. *)
Theorem extract_metrics_scores (lim : nat) (text : string) :
  (exists metric ds,
      In metric metric_names /\ first_occurrence (label metric) text ds) ->
  (converts lim text ->
   forall metric, In metric metric_names ->
     (forall ds, first_occurrence (label metric) text ds ->
        extract_metrics lim (Some text) !! metric = Some (decimal ds # 100)) /\
     (no_occurrence (label metric) text ->
        extract_metrics lim (Some text) !! metric = Some 0%Q)) /\
  ((exists metric ds e,
       In metric metric_names /\ first_occurrence (label metric) text ds /\
       score_of lim ds = inl e) ->
   extract_metrics lim (Some text) = all_zero).
Proof.
  intros (metric0 & ds0 & _ & F0). split.
  - intros C.
    destruct (extract_metrics_converted lim text (occurrence_truthy _ _ _ F0) C)
      as (m & _ & -> & Each).
    exact Each.
  - intros R. exact (proj2 (extract_metrics_raised lim text R)).
Qed.

Lemma extract_metrics_scores_witness :
  extract_metrics 4300 (Some sample_text) !! "Performance" = Some (85 # 100) /\
  extract_metrics 4300 (Some sample_text) !! "SEO" = Some 0%Q.
Proof.
  assert (In "Performance" metric_names) as IP by (simpl; auto).
  assert (In "SEO" metric_names) as IS by (simpl; auto 6).
  destruct (extract_metrics_scores 4300 sample_text) as [Each _].
  { exists "Performance", "85". split; [exact IP | exact sample_first_performance]. }
  specialize (Each sample_converts). split.
  - exact (proj1 (Each "Performance" IP) "85" sample_first_performance).
  - exact (proj2 (Each "SEO" IS) sample_no_seo).
Defined.

(** C1 as the specification words it, for every text: refuted by a report
    whose performance score is 10^400, for which [score / 100] raises and
    the handler returns 0.0. *)
Lemma extract_metrics_scores_counterexample :
  ~ (exists lim, scores_every_text lim).
Proof. intros [lim H]. exact (overflow_refutes lim H). Qed.

(** C2 (amended).  On any input text in which every integer picked up for
    a metric is at most 100, every value of the mapping returned by
    [extract_metrics] lies in the closed interval from 0.0 to 1.0. *)
Theorem extract_metrics_fractions (lim : nat) (text : option string)
    (metric : string) (v : Q) :
  (forall s m ds,
      text = Some s -> In m metric_names ->
      first_occurrence (label m) s ds -> (decimal ds <= 100)%Z) ->
  extract_metrics lim text !! metric = Some v ->
  (0 <= v)%Q /\ (v <= 1)%Q.
Proof.
  intros Small L.
  destruct (truthy text) eqn:T.
  2: { rewrite (extract_metrics_falsy _ _ T), lookup_empty in L. discriminate. }
  destruct text as [s|]; [| discriminate].
  rewrite (extract_metrics_truthy _ _ T) in L.
  assert ((0 <= 0)%Q /\ (0 <= 1)%Q) as Zero by (split; unfold Qle; simpl; lia).
  destruct (scan lim s patterns ∅) as [e|m] eqn:S.
  - apply all_zero_lookup in L as ->. exact Zero.
  - destruct (scan_values _ _ _ _ _ S L) as [-> | (ds & F & E)]; [exact Zero |].
    assert (In metric metric_names) as I.
    { destruct (in_dec string_dec metric metric_names) as [I | N]; [exact I |].
      destruct (scan_inr lim s patterns patterns_nodup _ _ S) as [_ Outside].
      change (map fst patterns) with metric_names in Outside.
      rewrite (Outside _ N), lookup_empty in L. discriminate. }
    pose proof (Small s metric ds eq_refl I F) as Le.
    apply score_of_value in E as [-> Ge].
    split; unfold Qle; cbn [Qnum Qden]; lia.
Qed.

Lemma extract_metrics_fractions_witness :
  (0 <= 85 # 100)%Q /\ (85 # 100 <= 1)%Q.
Proof.
  apply (extract_metrics_fractions 4300 (Some sample_text) "Performance").
  - intros s m ds [= <-] I F. apply search_first in F; [| apply label_plain].
    simpl in I. destruct I as [<- | [<- | [<- | [<- | []]]]];
      vm_compute in F; try discriminate; injection F as <-;
      vm_compute; discriminate.
  - vm_compute. reflexivity.
Defined.

(** C2 as the specification words it, for every text: refuted by a report
    that prints 150 before the Performance label, whose value is 1.5. *)
Lemma extract_metrics_fractions_counterexample : ~ fractions_every_text.
Proof.
  intros H.
  destruct (H 4300%nat (Some ("150" ++ label "Performance")) "Performance"
              (150 # 100)) as [_ Le].
  - vm_compute. reflexivity.
  - unfold Qle in Le. simpl in Le. lia.
Qed.

(** C3.  [extract_metrics] applied to an absent text or to the empty string
    returns the empty mapping; it returns the empty mapping for falsy texts
    only; and the empty mapping is not the mapping with all four metrics at
    0.0. *)
Theorem extract_metrics_empty (lim : nat) :
  extract_metrics lim None = ∅ /\
  extract_metrics lim (Some EmptyString) = ∅ /\
  (forall text, extract_metrics lim text = ∅ <-> truthy text = false) /\
  (∅ : gmap string Q) <> all_zero.
Proof.
  split; [reflexivity |]. split; [reflexivity |].
  split; [| exact empty_not_all_zero].
  intros text. split; [| apply extract_metrics_falsy].
  destruct (truthy text) eqn:T; [| reflexivity].
  destruct text as [s|]; [| discriminate].
  rewrite (extract_metrics_truthy _ _ T). intros E.
  assert (dom (∅ : gmap string Q) = metric_keys) as D.
  { rewrite <- E. destruct (scan lim s patterns ∅) as [e|m] eqn:S;
      [apply dom_all_zero | exact (scan_keys _ _ _ S)]. }
  rewrite dom_empty_L in D.
  assert ("SEO" ∈ metric_keys) as I by (apply elem_of_metric_keys; simpl; auto 6).
  rewrite <- D in I. set_solver.
Qed.

(** C10.  For every non-empty input text the mapping returned by
    [extract_metrics] has exactly the four keys Performance, Accessibility,
    Best Practices and SEO, whether the scan completes (the mapping is the
    one it built) or a conversion raises (the mapping is the handler's). *)
Theorem extract_metrics_keys (lim : nat) (text : string) :
  text <> EmptyString ->
  dom (extract_metrics lim (Some text)) = metric_keys /\
  ((exists m, scan lim text patterns ∅ = inr m /\
              extract_metrics lim (Some text) = m) \/
   (exists e, scan lim text patterns ∅ = inl e /\
              extract_metrics lim (Some text) = all_zero)).
Proof.
  intros N. assert (truthy (Some text) = true) as T
    by (destruct text; [contradiction | reflexivity]).
  rewrite (extract_metrics_truthy _ _ T).
  destruct (scan lim text patterns ∅) as [e|m] eqn:S.
  - split; [apply dom_all_zero | right; now exists e].
  - split; [exact (scan_keys _ _ _ S) | left; now exists m].
Qed.

Lemma extract_metrics_keys_witness :
  dom (extract_metrics 4300 (Some sample_text)) = metric_keys /\
  dom (extract_metrics 4300 (Some overflowing_text)) = metric_keys.
Proof.
  split.
  - apply (extract_metrics_keys 4300 sample_text). discriminate.
  - apply (extract_metrics_keys 4300 overflowing_text). discriminate.
Defined.

End MetricsClaims.

(** ** Competitor discovery and content fetching *)

Module PagesFacts.
Import Py Soup IO Pages StringFacts.

Lemma valid_link_spec (l : option string) :
  valid_link l = true <-> exists s, l = Some s /\ accepted s.
Proof.
  unfold valid_link, accepted. cbv zeta.
  rewrite !andb_true_iff, negb_true_iff, !Z.eqb_eq, Z.eqb_neq. split.
  - intros (T & (S & P) & A). destruct l as [s|]; [| discriminate].
    exists s. split; [reflexivity |]. simpl in *.
    split; [exact (find_from_found _ _ _ S) |].
    split; [now apply find_zero | now apply find_none].
  - intros (s & -> & S & P & A). simpl. repeat split.
    + destruct P as [t ->]. reflexivity.
    + intros E. apply find_none in E. contradiction.
    + now apply find_zero.
    + now apply find_none.
Qed.

(** The links collected are the valid links of the blocks, in the order
    of the blocks. *)
Lemma collect_links (all_data : list node) (position : Z)
    (search_results : list result_data) :
  map link (collect all_data position search_results) =
  (map link search_results ++
   List.filter (fun l => valid_link (Some l)) (omap anchor_href all_data))%list.
Proof.
  revert position search_results.
  induction all_data as [|result rest IH]; intros position search_results.
  - simpl. now rewrite app_nil_r.
  - cbn [collect omap list_omap]. unfold anchor_href at 1.
    destruct (find_in ["a"] None result) as [link_element|]; [| apply IH].
    destruct (get_href link_element) as [l|].
    + cbn [List.filter]. destruct (valid_link (Some l)) eqn:V.
      * rewrite IH, map_app. simpl. now rewrite <- app_assoc.
      * apply IH.
    + replace (valid_link None) with false by reflexivity. apply IH.
Qed.

Lemma first_foreign_some (our_domain : string) (rs : list result_data)
    (l : string) :
  first_foreign our_domain rs = Some l <->
  exists pre post,
    map link rs = (pre ++ l :: post)%list /\
    Forall (substring_of our_domain) pre /\ ~ substring_of our_domain l.
Proof.
  induction rs as [|r rest IH]; simpl.
  - split; [discriminate |]. intros (pre & post & E & _).
    destruct pre; discriminate.
  - destruct (contains our_domain (link r)) eqn:C; simpl.
    + apply contains_spec in C. rewrite IH.
      split; intros (pre & post & E & F & N).
      * exists (link r :: pre), post. simpl. rewrite E. auto.
      * destruct pre as [|x pre]; simpl in E; injection E as E1 E.
        -- congruence.
        -- exists pre, post. apply Forall_cons in F as [_ F]. auto.
    + apply contains_false in C. split.
      * intros [= <-]. exists [], (map link rest). auto.
      * intros (pre & post & E & F & N).
        destruct pre as [|x pre]; simpl in E; injection E as E1 E.
        -- congruence.
        -- apply Forall_cons in F as [F _]. congruence.
Qed.

Lemma first_foreign_none (our_domain : string) (rs : list result_data) :
  first_foreign our_domain rs = None <->
  Forall (substring_of our_domain) (map link rs).
Proof.
  induction rs as [|r rest IH]; simpl.
  - split; auto.
  - destruct (contains our_domain (link r)) eqn:C; simpl.
    + apply contains_spec in C. rewrite IH. split.
      * intros F. now constructor.
      * intros F. now apply Forall_cons in F as [_ F].
    + apply contains_false in C. split; [discriminate |].
      intros F. apply Forall_cons in F as [F _]. contradiction.
Qed.

(** A selection is empty exactly when no node of the document passes its
    test. *)
Lemma find_all_nil (names : list string) (wanted : option (list string))
    (doc : list node) :
  find_all names wanted doc = [] <->
  forall n, In n (nodes doc) -> selects names wanted n = false.
Proof.
  unfold find_all. induction (nodes doc) as [|x l IH]; simpl.
  - split; [contradiction | reflexivity].
  - destruct (selects names wanted x) eqn:S.
    + split; [discriminate |]. intros H.
      rewrite (H x (or_introl eq_refl)) in S. discriminate.
    + rewrite IH. split.
      * intros H n [<- | I]; auto.
      * intros H n I. apply H. now right.
Qed.

(** Splitting at a slash splits the list of pieces. *)
Lemma split_slash_nonempty (s : string) : split_slash s <> [].
Proof.
  destruct s as [|c s]; simpl; [discriminate |].
  destruct (Ascii.eqb c "/"); [discriminate |].
  destruct (split_slash s); discriminate.
Qed.

Lemma split_slash_app (pre rest : string) :
  split_slash (pre ++ String "/" rest)
  = (split_slash pre ++ split_slash rest)%list.
Proof.
  induction pre as [|c pre IH]; simpl.
  - reflexivity.
  - destruct (Ascii.eqb c "/"); rewrite IH; [reflexivity |].
    pose proof (split_slash_nonempty pre).
    destruct (split_slash pre); [contradiction | reflexivity].
Qed.

(** The domain expression never raises. *)
Lemma domain_of_total (our_url : string) : exists d, domain_of our_url = inr d.
Proof.
  unfold domain_of, getitem. destruct (contains "//" our_url) eqn:C.
  - apply contains_spec in C as (pre & post & ->).
    change (pre ++ "//" ++ post)
      with (pre ++ String "/" (EmptyString ++ String "/" post)).
    rewrite !split_slash_app.
    pose proof (split_slash_nonempty pre).
    pose proof (split_slash_nonempty post).
    destruct (split_slash pre) as [|a [|b [|c l]]]; [contradiction | ..];
      destruct (split_slash post) as [|x l']; try contradiction;
      simpl; eauto.
  - pose proof (split_slash_nonempty our_url).
    destruct (split_slash our_url); [contradiction | simpl; eauto].
Qed.

Section Runs.
Variable html_parser : string -> exn + list node.
Variable markup : node -> string.
Variable quote : string -> string.
Variable w : world.

Lemma search_results_links (soup : list node) :
  map link (search_results soup) =
  List.filter (fun l => valid_link (Some l)) (serp_links soup).
Proof. unfold search_results, serp_links. now rewrite collect_links. Qed.

Lemma search_results_accepted (soup : list node) (r : result_data) :
  In r (search_results soup) -> accepted (link r).
Proof.
  intros I. apply (in_map link) in I. rewrite search_results_links in I.
  apply filter_In in I as [_ V].
  apply valid_link_spec in V as (s & [= <-] & A). exact A.
Qed.

Lemma first_foreign_in (our_domain : string) (rs : list result_data) (l : string) :
  first_foreign our_domain rs = Some l -> exists r, In r rs /\ link r = l.
Proof.
  intros F. apply first_foreign_some in F as (pre & post & E & _).
  assert (In l (map link rs)) as I by (rewrite E; apply in_elt).
  apply in_map_iff in I as (r & <- & I). now exists r.
Qed.

(** A successful search: events and result. *)
Lemma run_get_top_competitor (keyword our_domain key serp : string)
    (soup : list node) :
  secrets w [] key_name = inr key ->
  http w [EvGetApiKey key_name] (serp_request (quote keyword) key)
  = inr (Response 200 serp) ->
  html_parser serp = inr soup ->
  run w (get_top_competitor html_parser quote keyword our_domain) =
  ([EvGetApiKey key_name; EvPost (serp_request (quote keyword) key)],
   first_foreign our_domain (search_results soup)).
Proof.
  intros K H P. unfold run, get_top_competitor. cbn [run_from].
  rewrite K. cbn [run_from app]. rewrite H. cbn [status_code body Z.eqb Pos.eqb].
  rewrite P. reflexivity.
Qed.

(** Whatever the world answers, a competitor that is returned was chosen
    among the results of some parsed SERP. *)
Lemma get_top_competitor_chosen (keyword our_domain l : string) :
  snd (run w (get_top_competitor html_parser quote keyword our_domain)) = Some l ->
  exists soup, first_foreign our_domain (search_results soup) = Some l.
Proof.
  unfold run, get_top_competitor. cbn [run_from].
  destruct (secrets w [] _) as [e|key]; cbn [run_from snd]; [discriminate |].
  destruct (http w _ _) as [e|[status serp]]; cbn [run_from snd];
    [discriminate |].
  cbn [status_code body]. destruct (status =? 200)%Z; cbn [run_from snd];
    [| discriminate].
  destruct (html_parser serp) as [e|soup]; cbn [run_from snd];
    [discriminate |].
  intros F. now exists soup.
Qed.

(** A successful fetch of a page: events and result. *)
Lemma run_fetch_page_content (url key html : string) (soup : list node) :
  secrets w [] key_name = inr key ->
  http w [EvGetApiKey key_name] (unlocker_request url key)
  = inr (Response 200 html) ->
  html_parser html = inr soup ->
  run w (fetch_page_content html_parser url) =
  ([EvGetApiKey key_name; EvPost (unlocker_request url key)],
   Some (main_text soup)).
Proof.
  intros K H P. unfold run, fetch_page_content. cbn [run_from].
  rewrite K. cbn [run_from app]. rewrite H. cbn [status_code body Z.eqb Pos.eqb].
  rewrite P. reflexivity.
Qed.

(** The URL each fetcher hands to the proxy. *)
Lemma fetch_page_content_target (url : string) :
  Forall (eq url) (fetched (fst (run w (fetch_page_content html_parser url)))).
Proof.
  unfold run, fetch_page_content. cbn [run_from].
  destruct (secrets w [] _) as [e|key]; cbn [run_from fst app];
    [repeat constructor |].
  destruct (http w _ _) as [e|[status html]]; cbn [run_from fst app];
    [repeat constructor |].
  cbn [status_code body]. destruct (status =? 200)%Z;
    [destruct (html_parser html) |]; cbn [run_from fst app];
    repeat constructor.
Qed.

Lemma fetch_html_content_target (url : string) :
  Forall (eq (with_scheme url))
         (fetched (fst (run w (fetch_html_content html_parser markup url)))).
Proof.
  unfold run, fetch_html_content. cbv zeta. cbn [run_from].
  destruct (secrets w [] _) as [e|key]; cbn [run_from fst app];
    [repeat constructor |].
  destruct (http w _ _) as [e|[status html]]; cbn [run_from fst app];
    [repeat constructor |].
  cbn [status_code body]. destruct (status =? 200)%Z;
    [destruct (html_parser html) |]; cbn [run_from fst app];
    repeat constructor.
Qed.

End Runs.

End PagesFacts.

Module PagesClaims.
Import Py Soup IO Pages StringFacts PagesFacts.

(** C4.  In [get_top_competitor] a SERP link enters the candidate results
    only if it contains "https", starts with "http" at offset 0 and does not
    contain "aclk"; so, whatever the SERP and the answers of the network, a
    link that contains the ad-click marker "aclk" is never returned as the
    competitor. *)
Theorem ad_links_never_selected (html_parser : string -> exn + list node)
    (quote : string -> string) :
  (forall soup r, In r (search_results soup) -> accepted (link r)) /\
  (forall w keyword our_domain l,
      snd (run w (get_top_competitor html_parser quote keyword our_domain))
      = Some l ->
      ~ substring_of "aclk" l).
Proof.
  split.
  - intros soup r. apply search_results_accepted.
  - intros w keyword our_domain l R.
    apply get_top_competitor_chosen in R as [soup F].
    apply first_foreign_in in F as (r & I & <-).
    apply search_results_accepted in I. apply I.
Qed.

Lemma ad_links_never_selected_witness :
  snd (run (steady "key" (Response 200 "serp") "reply")
           (get_top_competitor (fixed_parser ad_serp) id "keyword" "example.com"))
  = Some "https://other.com/y" /\
  ~ substring_of "aclk" "https://other.com/y".
Proof.
  assert (snd (run (steady "key" (Response 200 "serp") "reply")
                 (get_top_competitor (fixed_parser ad_serp) id "keyword"
                                     "example.com"))
          = Some "https://other.com/y") as R by (vm_compute; reflexivity).
  split; [exact R |].
  exact (proj2 (ad_links_never_selected (fixed_parser ad_serp) id) _ _ _ _ R).
Defined.

(** C5.  When the search succeeds and the SERP is parsed,
    [get_top_competitor] returns the first accepted link, in SERP order,
    that does not contain [own_domain] as a substring, and nothing when
    every accepted link contains it; with [own_domain] "example.com" and the
    accepted links "https://example.com/x", "https://other.com/y" in that
    order it returns "https://other.com/y". *)
Theorem first_foreign_competitor (html_parser : string -> exn + list node)
    (quote : string -> string) (w : world)
    (keyword our_domain key serp : string) (soup : list node) :
  secrets w [] key_name = inr key ->
  http w [EvGetApiKey key_name] (serp_request (quote keyword) key)
  = inr (Response 200 serp) ->
  html_parser serp = inr soup ->
  map link (search_results soup)
  = List.filter (fun l => valid_link (Some l)) (serp_links soup) /\
  (forall l,
      snd (run w (get_top_competitor html_parser quote keyword our_domain))
      = Some l <->
      exists pre post,
        map link (search_results soup) = (pre ++ l :: post)%list /\
        Forall (substring_of our_domain) pre /\ ~ substring_of our_domain l) /\
  (snd (run w (get_top_competitor html_parser quote keyword our_domain)) = None
   <-> Forall (substring_of our_domain) (map link (search_results soup))) /\
  (our_domain = "example.com" ->
   map link (search_results soup)
   = ["https://example.com/x"; "https://other.com/y"] ->
   snd (run w (get_top_competitor html_parser quote keyword our_domain))
   = Some "https://other.com/y").
Proof.
  intros K H P.
  rewrite (run_get_top_competitor html_parser quote w _ our_domain _ _ _ K H P).
  cbn [snd]. split; [apply search_results_links |].
  split; [intros l; apply first_foreign_some |].
  split; [apply first_foreign_none |].
  intros -> E. apply first_foreign_some.
  exists ["https://example.com/x"], []. split; [exact E |]. split.
  - repeat constructor. apply contains_spec. vm_compute. reflexivity.
  - apply contains_false. vm_compute. reflexivity.
Qed.

Lemma first_foreign_competitor_witness :
  snd (run (steady "key" (Response 200 "serp") "reply")
           (get_top_competitor (fixed_parser example_serp) id "keyword"
                               "example.com"))
  = Some "https://other.com/y".
Proof.
  refine (proj2 (proj2 (proj2
    (first_foreign_competitor (fixed_parser example_serp) id
       (steady "key" (Response 200 "serp") "reply")
       "keyword" "example.com" "key" "serp" example_serp _ _ _))) _ _).
  - reflexivity.
  - reflexivity.
  - reflexivity.
  - reflexivity.
  - vm_compute. reflexivity.
Defined.

(** C6 (the code at the failing input).  [fetch_html_content] hands the
    proxy the URL with "https://" put before it when it has no scheme;
    [fetch_page_content] hands over the URL as it was given: for
    "example.com/blog/post" the proxy is asked for "example.com/blog/post". *)
Theorem fetch_page_content_keeps_url (html_parser : string -> exn + list node)
    (markup : node -> string) (w : world) (url key reply : string)
    (r : response) :
  Forall (eq (with_scheme url))
         (fetched (fst (run w (fetch_html_content html_parser markup url)))) /\
  Forall (eq url) (fetched (fst (run w (fetch_page_content html_parser url)))) /\
  startswith "http://" "example.com/blog/post" = false /\
  startswith "https://" "example.com/blog/post" = false /\
  fetched (fst (run (steady key r reply)
                    (fetch_html_content html_parser markup "example.com/blog/post")))
  = ["https://example.com/blog/post"] /\
  fetched (fst (run (steady key r reply)
                    (fetch_page_content html_parser "example.com/blog/post")))
  = ["example.com/blog/post"].
Proof.
  split; [apply fetch_html_content_target |].
  split; [apply fetch_page_content_target |].
  split; [reflexivity |]. split; [reflexivity |].
  unfold run, fetch_html_content, fetch_page_content. cbv zeta.
  cbn [run_from steady secrets http app].
  destruct r as [status html]. cbn [status_code body].
  destruct (status =? 200)%Z; [destruct (html_parser html) |];
    split; reflexivity.
Qed.

(** C7.  [compare_articles] called with an absent or empty competitor URL
    returns exactly "Could not find competitor URL", and its run has no
    event at all: no key is read, nothing is posted to the proxy, no message
    is sent. *)
Theorem compare_articles_without_competitor (html_parser : string -> exn + list node)
    (w : world) (our_url main_keyword : string) :
  run w (compare_articles html_parser our_url None main_keyword)
  = ([], Some "Could not find competitor URL") /\
  run w (compare_articles html_parser our_url (Some EmptyString) main_keyword)
  = ([], Some "Could not find competitor URL").
Proof.
  unfold compare_articles.
  destruct (domain_of_total our_url) as [d ->]. split; reflexivity.
Qed.

(** C9.  When the page is fetched and parsed and its HTML contains no
    element selected as a content container (a main, article or div tag of
    class content, main or body), [fetch_page_content] takes the h1, h2, h3
    and p tags instead and returns their stripped texts joined with single
    spaces; when the HTML contains none of those tags either, it returns the
    empty string, not an absent result. *)
Theorem fetch_page_content_fallback (html_parser : string -> exn + list node)
    (w : world) (url key html : string) (soup : list node) :
  secrets w [] key_name = inr key ->
  http w [EvGetApiKey key_name] (unlocker_request url key)
  = inr (Response 200 html) ->
  html_parser html = inr soup ->
  (forall n, In n (nodes soup) ->
     selects ["main"; "article"; "div"] (Some ["content"; "main"; "body"]) n
     = false) ->
  snd (run w (fetch_page_content html_parser url))
  = Some (join " " (map get_text_strip
                        (find_all ["h1"; "h2"; "h3"; "p"] None soup)))
  /\
  ((forall n, In n (nodes soup) ->
      selects ["h1"; "h2"; "h3"; "p"] None n = false) ->
   snd (run w (fetch_page_content html_parser url)) = Some EmptyString).
Proof.
  intros K H P NoMain. apply find_all_nil in NoMain.
  rewrite (run_fetch_page_content html_parser w _ _ _ _ K H P). cbn [snd].
  unfold main_text. cbv zeta. rewrite NoMain. split; [reflexivity |].
  intros NoText. apply find_all_nil in NoText. now rewrite NoText.
Qed.

Lemma fetch_page_content_fallback_witness :
  snd (run (steady "key" (Response 200 "page") "reply")
           (fetch_page_content (fixed_parser plain_page) "https://site.com/post"))
  = Some "Title Helloworld".
Proof.
  refine (proj1 (fetch_page_content_fallback (fixed_parser plain_page)
                   (steady "key" (Response 200 "page") "reply")
                   "https://site.com/post" "key" "page" plain_page _ _ _ _)).
  - reflexivity.
  - reflexivity.
  - reflexivity.
  - apply find_all_nil. vm_compute. reflexivity.
Defined.

End PagesClaims.

(** ** Report synthesis *)

Module ReportFacts.
Import Py IO Report StringFacts.

Lemma slice_to_prefix (n : nat) (s : string) : prefix_of (slice_to n s) s.
Proof.
  unfold prefix_of. revert s. induction n as [|n IH]; intros [|c s]; simpl;
    try (eexists; reflexivity).
  destruct (IH s) as [t E]. exists t. now rewrite <- E.
Qed.

Lemma slice_to_length (n : nat) (s : string) :
  String.length (slice_to n s) = Nat.min n (String.length s).
Proof.
  revert s. induction n as [|n IH]; intros [|c s]; simpl; try reflexivity.
  now rewrite IH.
Qed.

(** The sections of the prompt and its length. *)
Lemma report_prompt_sections (website_url article_url lighthouse_data html : string) :
  substring_of
    ("Homepage HTML Sample:" ++ newline ++ "        " ++ html ++ newline)
    (report_prompt website_url article_url lighthouse_data html) /\
  substring_of
    ("Lighthouse Summary:" ++ newline ++ "        " ++ lighthouse_data ++ newline)
    (report_prompt website_url article_url lighthouse_data html) /\
  substring_of ("Website URL: " ++ website_url ++ newline)
    (report_prompt website_url article_url lighthouse_data html) /\
  substring_of ("Article URL: " ++ article_url ++ newline)
    (report_prompt website_url article_url lighthouse_data html) /\
  String.length (report_prompt website_url article_url lighthouse_data html)
  = (472 + String.length website_url + String.length article_url
     + String.length lighthouse_data + String.length html)%nat.
Proof.
  unfold report_prompt, nl, indent, substring_of.
  repeat split.
  - exists ("Based on these data, generate a comprehensive SEO analysis report:"
            ++ newline ++ "        " ++ newline
            ++ "        Website URL: " ++ website_url ++ newline
            ++ "        Article URL: " ++ article_url ++ newline
            ++ "        " ++ newline
            ++ "        Lighthouse Summary:" ++ newline
            ++ "        " ++ lighthouse_data ++ newline
            ++ "        " ++ newline ++ "        ").
    eexists. rewrite !append_assoc. simpl. reflexivity.
  - exists ("Based on these data, generate a comprehensive SEO analysis report:"
            ++ newline ++ "        " ++ newline
            ++ "        Website URL: " ++ website_url ++ newline
            ++ "        Article URL: " ++ article_url ++ newline
            ++ "        " ++ newline ++ "        ").
    eexists. rewrite !append_assoc. simpl. reflexivity.
  - exists ("Based on these data, generate a comprehensive SEO analysis report:"
            ++ newline ++ "        " ++ newline ++ "        ").
    eexists. rewrite !append_assoc. simpl. reflexivity.
  - exists ("Based on these data, generate a comprehensive SEO analysis report:"
            ++ newline ++ "        " ++ newline
            ++ "        Website URL: " ++ website_url ++ newline ++ "        ").
    eexists. rewrite !append_assoc. simpl. reflexivity.
  - unfold newline. rewrite !length_append. simpl String.length. lia.
Qed.

(** A missing key is an error of the function. *)
Lemma generate_ai_report_missing_key :
  generate_ai_report ∅ = Ret (inl (KeyError "lighthouse_data")).
Proof. reflexivity. Qed.

End ReportFacts.

Module ReportClaims.
Import Py IO Report StringFacts ReportFacts.

(** C8 (amended).  [generate_ai_report], given a dictionary that holds the
    keys lighthouse_data and html_content, sends one prompt; the prompt
    carries, under "Homepage HTML Sample:", the first 3000 characters of
    html_content (all of it when it is shorter) and nothing more of it, and
    under "Lighthouse Summary:" the Lighthouse text; a lighthouse_data or
    html_content that is [None] is replaced by the empty string. *)
Theorem generate_ai_report_prompt (data : gmap string (option string))
    (lighthouse_data html_content : option string) :
  data !! "lighthouse_data" = Some lighthouse_data ->
  data !! "html_content" = Some html_content ->
  generate_ai_report data =
  SendMessage
    (report_prompt (formatted (get data "website_url"))
                   (formatted (get data "article_url"))
                   (default EmptyString lighthouse_data)
                   (slice_to 3000 (default EmptyString html_content)))
    (fun r => Ret r) /\
  prefix_of (slice_to 3000 (default EmptyString html_content))
            (default EmptyString html_content) /\
  String.length (slice_to 3000 (default EmptyString html_content))
  = Nat.min 3000 (String.length (default EmptyString html_content)) /\
  default EmptyString (None : option string) = EmptyString /\
  (exists prompt,
      generate_ai_report data = SendMessage prompt (fun r => Ret r) /\
      substring_of
        ("Homepage HTML Sample:" ++ newline ++ "        "
         ++ slice_to 3000 (default EmptyString html_content) ++ newline)
        prompt /\
      substring_of
        ("Lighthouse Summary:" ++ newline ++ "        "
         ++ default EmptyString lighthouse_data ++ newline)
        prompt /\
      substring_of
        ("Website URL: " ++ formatted (get data "website_url") ++ newline)
        prompt /\
      substring_of
        ("Article URL: " ++ formatted (get data "article_url") ++ newline)
        prompt /\
      String.length prompt
      = (472 + String.length (formatted (get data "website_url"))
         + String.length (formatted (get data "article_url"))
         + String.length (default EmptyString lighthouse_data)
         + Nat.min 3000 (String.length (default EmptyString html_content)))%nat).
Proof.
  intros L H.
  assert (generate_ai_report data =
          SendMessage
            (report_prompt (formatted (get data "website_url"))
               (formatted (get data "article_url"))
               (default EmptyString lighthouse_data)
               (slice_to 3000 (default EmptyString html_content)))
            (fun r => Ret r)) as Sent.
  { unfold generate_ai_report, getitem. rewrite L, H. cbv zeta.
    destruct lighthouse_data as [[|a l]|]; destruct html_content as [[|b h]|];
      reflexivity. }
  split; [exact Sent |]. split; [apply slice_to_prefix |].
  split; [apply slice_to_length |]. split; [reflexivity |].
  eexists. split; [exact Sent |].
  pose proof (report_prompt_sections
                (formatted (get data "website_url"))
                (formatted (get data "article_url"))
                (default EmptyString lighthouse_data)
                (slice_to 3000 (default EmptyString html_content)))
    as (S1 & S2 & S3 & S4 & Len).
  repeat split; try assumption.
  rewrite Len, slice_to_length. reflexivity.
Qed.

Lemma generate_ai_report_prompt_witness :
  generate_ai_report sample_data =
  SendMessage
    (report_prompt EmptyString EmptyString EmptyString (Metrics.zeros 3000))
    (fun r => Ret r).
Proof.
  refine (eq_trans
            (proj1 (generate_ai_report_prompt sample_data None
                      (Some (Metrics.zeros 3005)) _ _)) _);
    vm_compute; reflexivity.
Defined.

(** C8 as the specification words it, for every dictionary: refuted by the
    empty dictionary, for which reading lighthouse_data raises [KeyError]
    and no prompt is sent. *)
Lemma generate_ai_report_prompt_counterexample :
  generate_ai_report ∅ = Ret (inl (KeyError "lighthouse_data")) /\
  ~ empty_for_absent.
Proof.
  split; [reflexivity |]. intros H. specialize (H ∅). discriminate.
Qed.

End ReportClaims.

(** ** The dashboard's helpers *)

Module AppFacts.
Import Py Pages App StringFacts PagesFacts.

Lemma slash_free_app (a b : string) :
  slash_free (a ++ b) = slash_free a && slash_free b.
Proof.
  induction a as [|c a IH]; simpl; [reflexivity |].
  now rewrite IH, andb_assoc.
Qed.

Lemma split_slash_free (p : string) :
  slash_free p = true -> split_slash p = [p].
Proof.
  induction p as [|c p IH]; simpl; [reflexivity |].
  intros H. apply andb_true_iff in H as [C F].
  apply negb_true_iff in C. rewrite C, (IH F). reflexivity.
Qed.

Lemma split_slash_prefix (p rest : string) :
  slash_free p = true ->
  split_slash (p ++ String "/" rest) = p :: split_slash rest.
Proof. intros F. now rewrite split_slash_app, (split_slash_free _ F). Qed.

Lemma pieces_slash_free (s piece : string) :
  In piece (split_slash s) -> slash_free piece = true.
Proof.
  revert piece. induction s as [|c s IH]; intros piece; simpl.
  - intros [<- | []]. reflexivity.
  - destruct (Ascii.eqb c "/") eqn:C.
    + intros [<- | I]; [reflexivity | now apply IH].
    + pose proof (split_slash_nonempty s) as N.
      destruct (split_slash s) as [|x l]; [contradiction |].
      intros [<- | I].
      * simpl. rewrite C. simpl. apply IH. now left.
      * apply IH. now right.
Qed.

Lemma slash_free_no_double (p : string) :
  slash_free p = true -> contains "//" p = false.
Proof.
  intros F. apply contains_false. intros (pre & post & E).
  rewrite E, !slash_free_app in F. simpl in F.
  rewrite andb_false_r in F. discriminate.
Qed.

Lemma length_split_slash (s : string) :
  List.length (split_slash s) = S (count_slash s).
Proof.
  induction s as [|c s IH]; simpl; [reflexivity |].
  destruct (Ascii.eqb c "/"); simpl; [now rewrite IH |].
  pose proof (split_slash_nonempty s) as N.
  destruct (split_slash s); [contradiction | simpl in *; lia].
Qed.

(** The pieces of a URL made of a slash-free scheme, "//", a slash-free
    host and a path. *)
Lemma split_slash_url (scheme host rest : string) :
  slash_free scheme = true -> slash_free host = true ->
  rest = EmptyString \/ prefix_of "/" rest ->
  exists more,
    split_slash (scheme ++ "//" ++ host ++ rest)
    = scheme :: EmptyString :: host :: more.
Proof.
  intros S H R.
  change (scheme ++ "//" ++ host ++ rest)
    with (scheme ++ String "/" (String "/" (host ++ rest))).
  rewrite (split_slash_prefix _ _ S).
  change (split_slash (String "/" (host ++ rest)))
    with (EmptyString :: split_slash (host ++ rest)).
  destruct R as [-> | [t ->]].
  - rewrite append_nil_r, (split_slash_free _ H). now exists [].
  - change ("/" ++ t) with (String "/" t).
    rewrite (split_slash_prefix _ _ H). now exists (split_slash t).
Qed.

Lemma homepage_of_url (scheme host rest : string) :
  slash_free scheme = true -> slash_free host = true ->
  rest = EmptyString \/ prefix_of "/" rest ->
  extract_homepage_url (scheme ++ "//" ++ host ++ rest)
  = inr (scheme ++ "//" ++ host).
Proof.
  intros S H R. unfold extract_homepage_url.
  assert (contains "//" (scheme ++ "//" ++ host ++ rest) = true) as ->
    by (apply contains_spec; now exists scheme, (host ++ rest)).
  destruct (split_slash_url _ _ _ S H R) as [more ->].
  destruct scheme; reflexivity.
Qed.

Lemma getitem_in (l : list string) (i : nat) (x : string) :
  getitem l i = inr x -> In x l.
Proof.
  unfold getitem. destruct (nth_error l i) eqn:E; [| discriminate].
  intros [= <-]. eapply nth_error_In. exact E.
Qed.

End AppFacts.

Module AppExtras.
Import Py Pages App StringFacts PagesFacts AppFacts.

(** X1.  [extract_homepage_url] raises for the empty URL only, and what it
    raises there is [ValueError]: the index 2 it reads when the URL
    contains "//" always exists. *)
Theorem extract_homepage_url_raises_on_empty_only (article_url : string) :
  match extract_homepage_url article_url with
  | inl e => e = ValueError /\ article_url = EmptyString
  | inr _ => article_url <> EmptyString
  end.
Proof.
  unfold extract_homepage_url.
  destruct article_url as [|c s]; [simpl; auto |].
  cbn [truthy negb].
  pose proof (domain_of_total (String c s)) as [d D]. unfold domain_of in D.
  destruct (contains "//" (String c s)).
  - pose proof (split_slash_nonempty (String c s)) as N.
    destruct (split_slash (String c s)) as [|x l]; [contradiction |].
    cbn [getitem nth_error] in *. rewrite D. discriminate.
  - rewrite D. discriminate.
Qed.

(** X2.  For a URL made of a scheme and a host without slashes, joined by
    "//" and followed by nothing or by a path that starts with "/",
    [extract_homepage_url] returns the scheme, "//" and the host. *)
Theorem extract_homepage_url_keeps_scheme_and_host (scheme host rest : string) :
  slash_free scheme = true -> slash_free host = true ->
  rest = EmptyString \/ prefix_of "/" rest ->
  extract_homepage_url (scheme ++ "//" ++ host ++ rest)
  = inr (scheme ++ "//" ++ host).
Proof. apply homepage_of_url. Qed.

Lemma extract_homepage_url_keeps_scheme_and_host_witness :
  extract_homepage_url "https://example.com/article/123"
  = inr "https://example.com".
Proof.
  apply (extract_homepage_url_keeps_scheme_and_host
           "https:" "example.com" "/article/123").
  - reflexivity.
  - reflexivity.
  - right. now exists "article/123".
Defined.

(** X3.  A homepage URL that [extract_homepage_url] returns, when it is
    not empty, is its own homepage URL. *)
Theorem extract_homepage_url_idempotent (article_url homepage : string) :
  extract_homepage_url article_url = inr homepage ->
  homepage <> EmptyString ->
  extract_homepage_url homepage = inr homepage.
Proof.
  unfold extract_homepage_url at 1.
  destruct (negb (truthy (Some article_url))); [discriminate |]. cbv zeta.
  destruct (contains "//" article_url).
  - destruct (getitem (split_slash article_url) 0) as [e|first] eqn:G0;
      [discriminate |].
    destruct (getitem (split_slash article_url) 2) as [e|third] eqn:G2;
      [discriminate |].
    intros [= <-] _.
    apply getitem_in, pieces_slash_free in G0.
    apply getitem_in, pieces_slash_free in G2.
    pose proof (homepage_of_url first third EmptyString G0 G2
                  (or_introl eq_refl)) as H.
    rewrite append_nil_r in H. exact H.
  - intros G N. apply getitem_in, pieces_slash_free in G.
    unfold extract_homepage_url.
    rewrite (slash_free_no_double _ G), (split_slash_free _ G).
    destruct homepage; [contradiction | reflexivity].
Qed.

Lemma extract_homepage_url_idempotent_witness :
  extract_homepage_url "https://example.com" = inr "https://example.com".
Proof.
  apply (extract_homepage_url_idempotent "https://example.com/article/123").
  - reflexivity.
  - discriminate.
Defined.

(** X4.  For an article URL that contains "//", the domain handed to
    [get_top_competitor], the domain [compare_articles] derives and the
    host of the homepage URL are one and the same piece of the URL, and it
    has no slash. *)
Theorem domains_agree (article_url : string) :
  contains "//" article_url = true ->
  exists first domain,
    domain_argument article_url = inr domain /\
    domain_of article_url = inr domain /\
    extract_homepage_url article_url = inr (first ++ "//" ++ domain) /\
    slash_free domain = true.
Proof.
  intros C. destruct (domain_of_total article_url) as [d D].
  pose proof D as D'. unfold domain_of in D'. rewrite C in D'.
  pose proof (split_slash_nonempty article_url) as N.
  destruct (split_slash article_url) as [|first l] eqn:S; [contradiction |].
  exists first, d. split; [unfold domain_argument; now rewrite S |].
  split; [exact D |]. split.
  - unfold extract_homepage_url. rewrite C, S.
    apply contains_spec in C as (pre & post & E).
    destruct article_url; [destruct pre; discriminate |].
    cbn [truthy negb getitem nth_error] in *. now rewrite D'.
  - apply (pieces_slash_free article_url). rewrite S.
    eapply getitem_in. exact D'.
Qed.

Lemma domains_agree_witness :
  exists first domain,
    domain_argument "https://example.com/a" = inr domain /\
    domain_of "https://example.com/a" = inr domain /\
    extract_homepage_url "https://example.com/a" = inr (first ++ "//" ++ domain) /\
    slash_free domain = true.
Proof. apply (domains_agree "https://example.com/a"). reflexivity. Defined.

(** X5.  The domain expression of the dashboard,
    [article_url.split('/')[2]], raises exactly for the URLs with fewer than
    two slashes, and then it is [IndexError]. *)
Theorem domain_argument_needs_two_slashes (article_url : string) :
  (domain_argument article_url = inl IndexError
   <-> (count_slash article_url < 2)%nat) /\
  ((exists domain, domain_argument article_url = inr domain)
   <-> (2 <= count_slash article_url)%nat).
Proof.
  unfold domain_argument, getitem.
  pose proof (length_split_slash article_url) as L.
  destruct (nth_error (split_slash article_url) 2) as [x|] eqn:E.
  - assert (2 < List.length (split_slash article_url))%nat as B
      by (apply nth_error_Some; congruence).
    split; split; try discriminate; try lia. intros _. now exists x.
  - apply nth_error_None in E.
    split; split; try lia; try reflexivity. intros [d D]. discriminate.
Qed.

End AppExtras.

(** ** Runs of the network functions *)

Module RunFacts.
Import Py Soup IO Pages Trace Steps StringFacts PagesFacts.

Lemma run_from_bind {A B : Type} (w : world) (p : prog A) (f : A -> prog B)
    (past : list event) :
  run_from w (bind p f) past =
  run_from w (f (snd (run_from w p past))) (fst (run_from w p past)).
Proof.
  revert past. induction p as [a | n k IH | r k IH | m k IH | m k IH];
    intros past; cbn [bind run_from]; auto.
Qed.

Lemma sent_app (a b : list event) : sent (a ++ b) = (sent a ++ sent b)%list.
Proof. apply flat_map_app. Qed.

Lemma fetched_app (a b : list event) :
  fetched (a ++ b) = (fetched a ++ fetched b)%list.
Proof. apply flat_map_app. Qed.

Lemma keys_read_app (a b : list event) :
  keys_read (a ++ b) = (keys_read a ++ keys_read b)%list.
Proof. apply flat_map_app. Qed.

Section Shapes.
Variable html_parser : string -> exn + list node.
Variable markup : node -> string.
Variable quote : string -> string.
Variable w : world.

(** What a fetch of a page adds to the events before it. *)
Lemma fetch_page_content_adds (url : string) (past : list event) :
  exists added,
    fst (run_from w (fetch_page_content html_parser url) past)
    = (past ++ added)%list /\
    keys_read added = [key_name] /\ sent added = [] /\
    (fetched added = [] \/ fetched added = [url]).
Proof.
  unfold fetch_page_content. cbn [run_from].
  destruct (secrets w past key_name) as [e|key]; cbn [run_from fst].
  { exists [EvGetApiKey key_name; EvPrint [Str "Error fetching "; Str url;
                                           Str ": "; Exc e]].
    rewrite <- app_assoc. repeat split; auto. }
  destruct (http w _ _) as [e|[status html]]; cbn [run_from fst].
  { exists [EvGetApiKey key_name; EvPost (unlocker_request url key);
            EvPrint [Str "Error fetching "; Str url; Str ": "; Exc e]].
    rewrite <- !app_assoc. repeat split; auto. }
  cbn [status_code body]. destruct (status =? 200)%Z;
    [destruct (html_parser html) as [e|soup] |]; cbn [run_from fst].
  - exists [EvGetApiKey key_name; EvPost (unlocker_request url key);
            EvPrint [Str "Error fetching "; Str url; Str ": "; Exc e]].
    rewrite <- !app_assoc. repeat split; auto.
  - exists [EvGetApiKey key_name; EvPost (unlocker_request url key)].
    rewrite <- !app_assoc. repeat split; auto.
  - exists [EvGetApiKey key_name; EvPost (unlocker_request url key)].
    rewrite <- !app_assoc. repeat split; auto.
Qed.

Lemma fetch_page_content_single (url : string) :
  single_attempt (fst (run w (fetch_page_content html_parser url))).
Proof.
  destruct (fetch_page_content_adds url []) as (added & E & K & S & F).
  unfold run. rewrite E. cbn [app]. unfold single_attempt.
  split; [exact K |]. split; [| exact S].
  destruct F as [-> | ->]; simpl; lia.
Qed.

Lemma fetch_html_content_single (url : string) :
  single_attempt (fst (run w (fetch_html_content html_parser markup url))).
Proof.
  unfold run, fetch_html_content, single_attempt. cbv zeta. cbn [run_from].
  destruct (secrets w [] key_name) as [e|key]; cbn [run_from fst app];
    [simpl; auto |].
  destruct (http w _ _) as [e|[status html]]; cbn [run_from fst app];
    [simpl; auto |].
  cbn [status_code body]. destruct (status =? 200)%Z;
    [destruct (html_parser html) |]; cbn [run_from fst app]; simpl; auto.
Qed.

Lemma get_top_competitor_single (keyword our_domain : string) :
  single_attempt
    (fst (run w (get_top_competitor html_parser quote keyword our_domain))).
Proof.
  unfold run, get_top_competitor, single_attempt. cbv zeta. cbn [run_from].
  destruct (secrets w [] key_name) as [e|key]; cbn [run_from fst app];
    [simpl; auto |].
  destruct (http w _ _) as [e|[status html]]; cbn [run_from fst app];
    [simpl; auto |].
  cbn [status_code body]. destruct (status =? 200)%Z;
    [destruct (html_parser html) |]; cbn [run_from fst app]; simpl; auto.
Qed.

(** The run of a comparison with a competitor URL, in its steps. *)
Lemma compare_articles_steps (our_url competitor_url main_keyword : string) :
  competitor_url <> EmptyString ->
  run w (compare_articles html_parser our_url (Some competitor_url) main_keyword)
  =
  let first := own_fetch html_parser w our_url in
  let second := competitor_fetch html_parser w our_url competitor_url in
  if negb (truthy (snd first)) || negb (truthy (snd second))
  then (fst second, Some "Error fetching page content")
  else
    let prompt := comparison_prompt main_keyword
                    (default EmptyString (snd first))
                    (default EmptyString (snd second)) in
    match gemini w (fst second) prompt with
    | inl e =>
        ((fst second ++ [EvSendMessage prompt;
                         EvPrint [Str "Error in article comparison: "; Exc e]])%list,
         None)
    | inr text => ((fst second ++ [EvSendMessage prompt])%list, Some text)
    end.
Proof.
  intros N. unfold run, compare_articles.
  destruct (domain_of_total our_url) as [d ->].
  assert (truthy (Some competitor_url) = true) as ->
    by (destruct competitor_url; [contradiction | reflexivity]).
  change (default EmptyString (Some competitor_url)) with competitor_url.
  cbn [negb]. rewrite !run_from_bind. cbv zeta.
  fold (own_fetch html_parser w our_url).
  fold (competitor_fetch html_parser w our_url competitor_url).
  destruct (negb (truthy (snd (own_fetch html_parser w our_url)))
            || negb (truthy (snd (competitor_fetch html_parser w our_url
                                                   competitor_url))));
    cbn [run_from]; [reflexivity |].
  destruct (gemini w _ _); cbn [run_from]; [| reflexivity].
  now rewrite <- app_assoc.
Qed.

(** Neither fetch of a comparison calls the generative model. *)
Lemma fetches_send_nothing (our_url competitor_url : string) :
  sent (fst (competitor_fetch html_parser w our_url competitor_url)) = [].
Proof.
  unfold competitor_fetch, own_fetch.
  destruct (fetch_page_content_adds our_url []) as (a1 & E1 & _ & S1 & _).
  rewrite E1.
  destruct (fetch_page_content_adds competitor_url ([] ++ a1))
    as (a2 & E2 & _ & S2 & _).
  rewrite E2, !sent_app, S1, S2. reflexivity.
Qed.

End Shapes.

End RunFacts.

Module PagesExtras.
Import Py Soup IO Pages Trace Steps StringFacts PagesFacts RunFacts.

Lemma collect_positions (all_data : list node) (position0 : Z)
    (found : list result_data) :
  position0 = Z.of_nat (List.length found) ->
  (forall i r, nth_error found i = Some r -> position r = (Z.of_nat i + 1)%Z) ->
  forall i r,
    nth_error (collect all_data position0 found) i = Some r ->
    position r = (Z.of_nat i + 1)%Z.
Proof.
  revert position0 found.
  induction all_data as [|result rest IH]; intros position0 found P Inv;
    cbn [collect]; [exact Inv |].
  destruct (find_in ["a"] None result) as [link_element|]; [| now apply IH].
  destruct (valid_link (get_href link_element)); [| now apply IH].
  cbv zeta. apply IH.
  - rewrite length_app. simpl. lia.
  - intros i r E.
    destruct (Nat.lt_ge_cases i (List.length found)) as [Lt | Ge].
    + rewrite nth_error_app1 in E by exact Lt. now apply Inv.
    + rewrite nth_error_app2 in E by exact Ge.
      destruct (i - List.length found)%nat as [|k] eqn:D; simpl in E.
      * injection E as <-. simpl. lia.
      * destruct k; discriminate.
Qed.

(** X6.  The positions recorded with the search results count the accepted
    links from 1, in SERP order: the result at index [i] has position
    [i + 1], whatever blocks were skipped before it. *)
Theorem positions_count_from_one (soup : list node) (i : nat)
    (r : result_data) :
  nth_error (search_results soup) i = Some r ->
  position r = (Z.of_nat i + 1)%Z.
Proof.
  unfold search_results. apply collect_positions; [reflexivity |].
  intros j x E. destruct j; discriminate.
Qed.

Lemma positions_count_from_one_witness :
  exists r,
    nth_error (search_results ad_serp) 1 = Some r /\
    link r = "https://other.com/y" /\ position r = 2%Z.
Proof.
  eexists. split; [reflexivity |]. split; [reflexivity |].
  apply (positions_count_from_one ad_serp 1).
  reflexivity.
Defined.

(** X7.  Whatever the network answers, a competitor that
    [get_top_competitor] returns does not contain [our_domain], starts with
    "http" and contains "https". *)
Theorem competitor_is_foreign (html_parser : string -> exn + list node)
    (quote : string -> string) (w : world) (keyword our_domain l : string) :
  snd (run w (get_top_competitor html_parser quote keyword our_domain)) = Some l ->
  ~ substring_of our_domain l /\ prefix_of "http" l /\ substring_of "https" l.
Proof.
  intros R. apply get_top_competitor_chosen in R as [serp F].
  pose proof F as F'. apply first_foreign_some in F' as (_ & _ & _ & _ & N).
  apply first_foreign_in in F as (r & I & <-).
  apply search_results_accepted in I as (S & P & _). auto.
Qed.

Lemma competitor_is_foreign_witness :
  ~ substring_of "example.com" "https://other.com/y" /\
  prefix_of "http" "https://other.com/y" /\
  substring_of "https" "https://other.com/y".
Proof.
  apply (competitor_is_foreign (fixed_parser example_serp) id
           (steady "key" (Response 200 "serp") "reply") "keyword").
  vm_compute. reflexivity.
Defined.

(** X8.  With an empty [our_domain] no competitor is ever returned: the
    empty string is contained in every link. *)
Theorem empty_domain_finds_nothing (html_parser : string -> exn + list node)
    (quote : string -> string) (w : world) (keyword : string) :
  snd (run w (get_top_competitor html_parser quote keyword EmptyString)) = None.
Proof.
  destruct (snd (run w (get_top_competitor html_parser quote keyword
                                           EmptyString))) as [l|] eqn:R;
    [| reflexivity].
  apply get_top_competitor_chosen in R as [serp F].
  apply first_foreign_some in F as (_ & _ & _ & _ & N).
  exfalso. apply N. now exists EmptyString, l.
Qed.

(** X9.  No retry: in every run of [fetch_html_content],
    [fetch_page_content] and [get_top_competitor] the proxy key is read
    once, at most one request is posted, and the generative model is never
    called. *)
Theorem network_functions_try_once (html_parser : string -> exn + list node)
    (markup : node -> string) (quote : string -> string) (w : world)
    (url keyword our_domain : string) :
  single_attempt (fst (run w (fetch_html_content html_parser markup url))) /\
  single_attempt (fst (run w (fetch_page_content html_parser url))) /\
  single_attempt
    (fst (run w (get_top_competitor html_parser quote keyword our_domain))).
Proof.
  split; [apply fetch_html_content_single |].
  split; [apply fetch_page_content_single | apply get_top_competitor_single].
Qed.

(** X10.  [fetch_page_content] returns a text exactly when the key was
    read, the proxy answered with status 200 and the parser accepted the
    answer's body, and the text is then the main text of the parsed
    document; in every other case, a rejected body included, it returns
    nothing. *)
Theorem fetch_page_content_needs_200 (html_parser : string -> exn + list node)
    (w : world) (url : string) (t : string) :
  snd (run w (fetch_page_content html_parser url)) = Some t <->
  exists key html soup,
    secrets w [] key_name = inr key /\
    http w [EvGetApiKey key_name] (unlocker_request url key)
    = inr (Response 200 html) /\
    html_parser html = inr soup /\
    t = main_text soup.
Proof.
  split.
  - unfold run, fetch_page_content. cbn [run_from].
    destruct (secrets w [] key_name) as [e|key]; cbn [run_from snd app];
      [discriminate |].
    destruct (http w _ _) as [e|[status html]] eqn:H; cbn [run_from snd];
      [discriminate |].
    cbn [status_code body]. destruct (Z.eqb_spec status 200) as [-> | Ne];
      cbn [run_from snd]; [| discriminate].
    destruct (html_parser html) as [e|soup] eqn:P; cbn [run_from snd];
      [discriminate |].
    intros [= <-]. now exists key, html, soup.
  - intros (key & html & soup & K & H & P & ->).
    now rewrite (run_fetch_page_content html_parser w _ _ _ _ K H P).
Qed.

(** A body that the parser rejects: the handler prints and the result is
    absent. *)
Example fetch_page_content_rejected_body :
  run (steady "key" (Response 200 "<![UNKNOWN[]]>") "reply")
      (fetch_page_content rejecting_parser "https://site.com/post")
  = ([EvGetApiKey key_name;
      EvPost (unlocker_request "https://site.com/post" "key");
      EvPrint [Str "Error fetching "; Str "https://site.com/post"; Str ": ";
               Exc (ExternalError "ParserRejectedMarkup")]],
     None).
Proof. reflexivity. Qed.

(** X11.  Whatever the network answers, the URL that [fetch_html_content]
    returns is the one it posted, it starts with "http://" or "https://",
    and putting the scheme is idempotent; the HTML it returns is present
    exactly when the proxy answered with status 200 and the parser accepted
    the answer's body. *)
Theorem fetch_html_content_url (html_parser : string -> exn + list node)
    (markup : node -> string) (w : world) (url : string) :
  fst (snd (run w (fetch_html_content html_parser markup url)))
  = with_scheme url /\
  Forall (eq (with_scheme url))
         (fetched (fst (run w (fetch_html_content html_parser markup url)))) /\
  startswith "http://" (with_scheme url)
  || startswith "https://" (with_scheme url) = true /\
  with_scheme (with_scheme url) = with_scheme url /\
  (forall h,
      snd (snd (run w (fetch_html_content html_parser markup url))) = Some h <->
      exists key html soup,
        secrets w [] key_name = inr key /\
        http w [EvGetApiKey key_name] (unlocker_request (with_scheme url) key)
        = inr (Response 200 html) /\
        html_parser html = inr soup /\
        h = collected_html markup soup).
Proof.
  assert (startswith "http://" (with_scheme url)
          || startswith "https://" (with_scheme url) = true) as Scheme.
  { unfold with_scheme.
    destruct (startswith "http://" url || startswith "https://" url) eqn:S;
      cbn [negb]; [exact S |].
    apply orb_true_iff. right. apply startswith_spec. now exists url. }
  split; [| split; [apply fetch_html_content_target |
                    split; [exact Scheme | split]]].
  - unfold run, fetch_html_content. cbv zeta. cbn [run_from].
    destruct (secrets w [] key_name) as [e|key]; cbn [run_from snd fst];
      [reflexivity |].
    destruct (http w _ _) as [e|[status html]]; cbn [run_from snd fst];
      [reflexivity |].
    cbn [status_code body]. destruct (status =? 200)%Z;
      [destruct (html_parser html) |]; reflexivity.
  - unfold with_scheme at 1. now rewrite Scheme.
  - intros h. unfold run, fetch_html_content. cbv zeta. cbn [run_from].
    destruct (secrets w [] key_name) as [e|key]; cbn [run_from snd app].
    { split; [discriminate | intros (k & x & d & K & _); discriminate]. }
    destruct (http w _ _) as [e|[status html]] eqn:H; cbn [run_from snd].
    { split; [discriminate |]. intros (k & x & d & [= <-] & H' & _). congruence. }
    cbn [status_code body]. destruct (Z.eqb_spec status 200) as [-> | Ne].
    + destruct (html_parser html) as [e|soup] eqn:P; cbn [run_from snd].
      * split; [discriminate |]. intros (k & x & d & [= <-] & H' & P' & _).
        rewrite H in H'. injection H' as <-. congruence.
      * split.
        -- intros [= <-]. now exists key, html, soup.
        -- intros (k & x & d & [= <-] & H' & P' & ->). rewrite H in H'.
           injection H' as <-. congruence.
    + cbn [run_from snd]. split; [discriminate |].
      intros (k & x & d & [= <-] & H' & _).
      rewrite H in H'. injection H' as E _. contradiction.
Qed.

End PagesExtras.

Module CompareExtras.
Import Py Soup IO Pages Trace Steps StringFacts PagesFacts RunFacts.

(** X12.  With a competitor URL, when either page comes back absent or
    empty, [compare_articles] returns "Error fetching page content"; its
    events are those of the two fetches, the second made after the first
    whatever the first returned, and the generative model is not called. *)
Theorem compare_articles_fetch_failure (html_parser : string -> exn + list node)
    (w : world) (our_url competitor_url main_keyword : string) :
  competitor_url <> EmptyString ->
  truthy (snd (own_fetch html_parser w our_url)) = false \/
  truthy (snd (competitor_fetch html_parser w our_url competitor_url)) = false ->
  run w (compare_articles html_parser our_url (Some competitor_url) main_keyword)
  = (fst (competitor_fetch html_parser w our_url competitor_url),
     Some "Error fetching page content") /\
  sent (fst (run w (compare_articles html_parser our_url (Some competitor_url)
                                     main_keyword))) = [].
Proof.
  intros N F. rewrite (compare_articles_steps html_parser w _ _ _ N). cbv zeta.
  assert (negb (truthy (snd (own_fetch html_parser w our_url)))
          || negb (truthy (snd (competitor_fetch html_parser w our_url
                                                 competitor_url))) = true) as ->
    by (destruct F as [-> | ->]; [reflexivity | apply orb_true_r]).
  split; [reflexivity |]. cbn [fst]. apply fetches_send_nothing.
Qed.

Lemma compare_articles_fetch_failure_witness :
  run (steady "key" (Response 503 "busy") "reply")
      (compare_articles (fixed_parser plain_page) "https://site.com/post"
                        (Some "https://rival.com/post") "keyword")
  = ([EvGetApiKey key_name;
      EvPost (unlocker_request "https://site.com/post" "key");
      EvGetApiKey key_name;
      EvPost (unlocker_request "https://rival.com/post" "key")],
     Some "Error fetching page content").
Proof.
  refine (proj1 (compare_articles_fetch_failure (fixed_parser plain_page)
                   (steady "key" (Response 503 "busy") "reply")
                   "https://site.com/post" "https://rival.com/post" "keyword"
                   _ _)).
  - discriminate.
  - left. reflexivity.
Defined.

(** X13.  With a competitor URL and two non-empty page texts,
    [compare_articles] sends the generative model exactly one message, the
    comparison prompt built from the keyword and the two texts, after the
    two fetches; it returns the reply, or nothing when the call raises. *)
Theorem compare_articles_sends_one_prompt (html_parser : string -> exn + list node)
    (w : world) (our_url competitor_url main_keyword : string) :
  competitor_url <> EmptyString ->
  truthy (snd (own_fetch html_parser w our_url)) = true ->
  truthy (snd (competitor_fetch html_parser w our_url competitor_url)) = true ->
  sent (fst (run w (compare_articles html_parser our_url (Some competitor_url)
                                     main_keyword)))
  = [comparison_prompt main_keyword
       (default EmptyString (snd (own_fetch html_parser w our_url)))
       (default EmptyString
          (snd (competitor_fetch html_parser w our_url competitor_url)))] /\
  snd (run w (compare_articles html_parser our_url (Some competitor_url)
                               main_keyword))
  = match gemini w (fst (competitor_fetch html_parser w our_url competitor_url))
            (comparison_prompt main_keyword
               (default EmptyString (snd (own_fetch html_parser w our_url)))
               (default EmptyString
                  (snd (competitor_fetch html_parser w our_url competitor_url))))
    with
    | inl _ => None
    | inr text => Some text
    end.
Proof.
  intros N T1 T2. rewrite (compare_articles_steps html_parser w _ _ _ N).
  cbv zeta. rewrite T1, T2. cbn [negb orb].
  destruct (gemini w _ _); cbn [fst snd];
    rewrite sent_app, fetches_send_nothing; split; reflexivity.
Qed.

Lemma compare_articles_sends_one_prompt_witness :
  snd (run (steady "key" (Response 200 "page") "reply")
           (compare_articles (fixed_parser plain_page) "https://site.com/post"
                             (Some "https://rival.com/post") "keyword"))
  = Some "reply".
Proof.
  refine (proj2 (compare_articles_sends_one_prompt (fixed_parser plain_page)
                   (steady "key" (Response 200 "page") "reply")
                   "https://site.com/post" "https://rival.com/post" "keyword"
                   _ _ _)).
  - discriminate.
  - reflexivity.
  - reflexivity.
Defined.

(** X14.  [compare_articles] returns nothing only when the call of the
    generative model raised: a missing competitor and a failed fetch each
    give a message of their own. *)
Theorem compare_articles_none_means_model_raised
    (html_parser : string -> exn + list node) (w : world) (our_url : string)
    (competitor_url : option string) (main_keyword : string) :
  snd (run w (compare_articles html_parser our_url competitor_url main_keyword))
  = None ->
  exists past prompt e,
    gemini w past prompt = inl e /\
    sent (fst (run w (compare_articles html_parser our_url competitor_url
                                       main_keyword))) = [prompt].
Proof.
  destruct competitor_url as [[|c u]|].
  - unfold run, compare_articles.
    destruct (domain_of_total our_url) as [d ->]. discriminate.
  - assert (String c u <> EmptyString) as N by discriminate.
    rewrite (compare_articles_steps html_parser w _ _ _ N). cbv zeta.
    destruct (negb _ || negb _); [discriminate |].
    destruct (gemini w _ _) as [e|text] eqn:G; [| discriminate].
    intros _. eexists _, _, e. split; [exact G |].
    cbn [fst]. now rewrite sent_app, fetches_send_nothing.
  - unfold run, compare_articles.
    destruct (domain_of_total our_url) as [d ->]. discriminate.
Qed.

Lemma compare_articles_none_means_model_raised_witness :
  exists past prompt e,
    gemini {| secrets := fun _ _ => inr "key";
              http := fun _ _ => inr (Response 200 "page");
              gemini := fun _ _ => inl (ExternalError "quota") |}
           past prompt = inl e /\
    sent (fst (run {| secrets := fun _ _ => inr "key";
                      http := fun _ _ => inr (Response 200 "page");
                      gemini := fun _ _ => inl (ExternalError "quota") |}
                   (compare_articles (fixed_parser plain_page)
                      "https://site.com/post" (Some "https://rival.com/post")
                      "keyword"))) = [prompt].
Proof.
  apply (compare_articles_none_means_model_raised (fixed_parser plain_page)).
  reflexivity.
Defined.

Lemma fetch_page_content_posts (html_parser : string -> exn + list node) (w : world)
    (url : string) (past : list event) :
  keys_available w ->
  fetched (fst (run_from w (fetch_page_content html_parser url) past))
  = (fetched past ++ [url])%list.
Proof.
  intros K. unfold fetch_page_content. cbn [run_from].
  destruct (K past key_name) as [key ->]. cbn [run_from].
  destruct (http w _ _) as [e|[status html]]; cbn [run_from fst].
  - rewrite <- !app_assoc, fetched_app. reflexivity.
  - cbn [status_code body]. destruct (status =? 200)%Z;
      [destruct (html_parser html) |]; cbn [run_from fst];
      rewrite <- !app_assoc, fetched_app; reflexivity.
Qed.

(** X15.  With a competitor URL and a key store that answers,
    [compare_articles] asks the proxy for exactly two pages, its own and
    then the competitor's, whatever the first request returned. *)
Theorem compare_articles_fetches_both (html_parser : string -> exn + list node)
    (w : world) (our_url competitor_url main_keyword : string) :
  competitor_url <> EmptyString -> keys_available w ->
  fetched (fst (run w (compare_articles html_parser our_url
                                        (Some competitor_url) main_keyword)))
  = [our_url; competitor_url].
Proof.
  intros N K.
  assert (fetched (fst (competitor_fetch html_parser w our_url competitor_url))
          = [our_url; competitor_url]) as F.
  { unfold competitor_fetch, own_fetch.
    now rewrite !(fetch_page_content_posts html_parser w _ _ K). }
  rewrite (compare_articles_steps html_parser w _ _ _ N). cbv zeta.
  destruct (negb _ || negb _); cbn [fst]; [exact F |].
  destruct (gemini w _ _); cbn [fst]; rewrite fetched_app, F; reflexivity.
Qed.

Lemma compare_articles_fetches_both_witness :
  fetched (fst (run (steady "key" (Response 503 "busy") "reply")
                    (compare_articles (fixed_parser plain_page)
                       "https://site.com/post" (Some "https://rival.com/post")
                       "keyword")))
  = ["https://site.com/post"; "https://rival.com/post"].
Proof.
  apply (compare_articles_fetches_both (fixed_parser plain_page)).
  - discriminate.
  - intros past name. now exists "key".
Defined.

End CompareExtras.

Module ReportExtras.
Import Py IO Report App StringFacts ReportFacts.

Lemma report_prompt_length (website_url article_url lighthouse_data html : string) :
  String.length (report_prompt website_url article_url lighthouse_data html)
  = (472 + String.length website_url + String.length article_url
     + String.length lighthouse_data + String.length html)%nat.
Proof.
  unfold report_prompt, nl, indent, newline.
  rewrite !length_append. simpl String.length. lia.
Qed.

(** With both keys present the function sends one prompt. *)
Lemma generate_ai_report_present (data : gmap string (option string))
    (lighthouse_data html_content : option string) :
  data !! "lighthouse_data" = Some lighthouse_data ->
  data !! "html_content" = Some html_content ->
  generate_ai_report data =
  SendMessage
    (report_prompt (formatted (get data "website_url"))
                   (formatted (get data "article_url"))
                   (default EmptyString lighthouse_data)
                   (slice_to 3000 (default EmptyString html_content)))
    (fun r => Ret r).
Proof.
  intros L H. unfold generate_ai_report, getitem. rewrite L, H. cbv zeta.
  destruct lighthouse_data as [[|a l]|]; destruct html_content as [[|b h]|];
    reflexivity.
Qed.

(** X16.  When the dictionary lacks the key lighthouse_data or the key
    html_content, [generate_ai_report] raises [KeyError] for the first of
    the two that is missing, and nothing is sent to the generative model. *)
Theorem generate_ai_report_missing_keys (w : world)
    (data : gmap string (option string)) :
  data !! "lighthouse_data" = None \/ data !! "html_content" = None ->
  run w (generate_ai_report data)
  = ([], inl (KeyError match data !! "lighthouse_data" with
                       | None => "lighthouse_data"
                       | Some _ => "html_content"
                       end)).
Proof.
  unfold run, generate_ai_report, getitem.
  destruct (data !! "lighthouse_data") as [l|]; [| reflexivity].
  intros [E | ->]; [discriminate | reflexivity].
Qed.

Lemma generate_ai_report_missing_keys_witness :
  run (steady "key" (Response 200 "page") "reply")
      (generate_ai_report (<["lighthouse_data" := Some "report"]> ∅))
  = ([], inl (KeyError "html_content")).
Proof.
  refine (eq_trans (generate_ai_report_missing_keys
                      (steady "key" (Response 200 "page") "reply")
                      (<["lighthouse_data" := Some "report"]> ∅) _) _).
  - right. vm_compute. reflexivity.
  - vm_compute. reflexivity.
Defined.

(** X17.  For the dictionary the dashboard builds, [generate_ai_report]
    sends one prompt whose length is at most 9505 characters plus the
    lengths of the two URLs: each Lighthouse report and the HTML contribute
    at most 3000 characters, however long they are. *)
Theorem dashboard_prompt_is_bounded
    (mobile_report desktop_report html_content homepage_url article_url : string) :
  exists prompt,
    generate_ai_report
      (combined_data mobile_report desktop_report html_content
                     homepage_url article_url)
    = SendMessage prompt (fun r => Ret r) /\
    (Z.of_nat (String.length prompt)
     <= 9505 + Z.of_nat (String.length homepage_url)
        + Z.of_nat (String.length article_url))%Z.
Proof.
  eexists. split.
  - apply generate_ai_report_present; unfold combined_data.
    + rewrite !lookup_insert_ne by discriminate. apply lookup_insert_eq.
    + rewrite !lookup_insert_ne by discriminate. apply lookup_insert_eq.
  - rewrite report_prompt_length. unfold get, combined_data.
    rewrite lookup_insert_ne by discriminate. rewrite !lookup_insert_eq.
    cbn [formatted default from_option id].
    rewrite !length_append, !slice_to_length. unfold newline.
    simpl String.length. lia.
Qed.

End ReportExtras.

Module MetricsExtras.
Import Py Re Metrics StringFacts ReFacts MetricsFacts.

(** X18.  On any text, no value of the mapping returned by
    [extract_metrics] is negative: the patterns pick up digits only, with no
    sign, and the handler's values are 0.0. *)
Theorem extract_metrics_non_negative (lim : nat) (text : option string)
    (metric : string) (v : Q) :
  extract_metrics lim text !! metric = Some v -> (0 <= v)%Q.
Proof.
  intros L. destruct (truthy text) eqn:T.
  2: { rewrite (extract_metrics_falsy _ _ T), lookup_empty in L. discriminate. }
  destruct text as [s|]; [| discriminate].
  rewrite (extract_metrics_truthy _ _ T) in L.
  destruct (scan lim s patterns ∅) as [e|m] eqn:S.
  - apply all_zero_lookup in L as ->. apply Qle_refl.
  - destruct (scan_values _ _ _ _ _ S L) as [-> | (ds & _ & E)];
      [apply Qle_refl |].
    apply score_of_value in E as [-> Ge].
    unfold Qle. cbn [Qnum Qden]. lia.
Qed.

Lemma extract_metrics_non_negative_witness : (0 <= 150 # 100)%Q.
Proof.
  apply (extract_metrics_non_negative 4300
           (Some ("150" ++ label "Performance")) "Performance").
  vm_compute. reflexivity.
Defined.

End MetricsExtras.

Module DisplayExtras.
Import Display.

Lemma scores_shown :
  forallb (fun score =>
             match percent (fraction score) with
             | Some shown =>
                 (shown =? (if (score =? 29) || (score =? 57) || (score =? 58)
                            then score - 1 else score))%Z
             | None => false
             end) scores = true.
Proof. vm_compute. reflexivity. Qed.

(** X19.  For a score from 0 to 100, the percentage the dashboard shows and
    exports, [int(value * 100)] with [value = score / 100] in floating
    point, is the score itself, except for 29, 57 and 58, which are shown as
    28, 56 and 57. *)
Theorem shown_percent (score : Z) :
  (0 <= score <= 100)%Z ->
  percent (fraction score)
  = Some (if (score =? 29) || (score =? 57) || (score =? 58)
          then score - 1 else score)%Z.
Proof.
  intros R. pose proof scores_shown as A.
  rewrite forallb_forall in A. specialize (A score).
  assert (In score scores) as I.
  { unfold scores. apply in_map_iff. exists (Z.to_nat score).
    split; [lia | apply in_seq; lia]. }
  specialize (A I). destruct (percent (fraction score)) as [shown|];
    [| discriminate].
  apply Z.eqb_eq in A. now rewrite A.
Qed.

Lemma shown_percent_witness :
  percent (fraction 57) = Some 56%Z /\ percent_text (fraction 57) = Some "56%".
Proof.
  split; [apply (shown_percent 57); lia | vm_compute; reflexivity].
Defined.

End DisplayExtras.

Module DiagnosticsExtras.
Import Py Soup IO Pages Trace Steps StringFacts PagesFacts RunFacts.

(** X20.  When the proxy answers with a status other than 200,
    [fetch_page_content] and [get_top_competitor] return nothing and print
    nothing, and [fetch_html_content] returns no HTML and prints one line
    with the status code. *)
Theorem refused_requests (html_parser : string -> exn + list node)
    (markup : node -> string) (quote : string -> string) (w : world)
    (url keyword our_domain key html : string) (status : Z) :
  status <> 200%Z ->
  secrets w [] key_name = inr key ->
  (http w [EvGetApiKey key_name] (unlocker_request url key)
   = inr (Response status html) ->
   run w (fetch_page_content html_parser url)
   = ([EvGetApiKey key_name; EvPost (unlocker_request url key)], None)) /\
  (http w [EvGetApiKey key_name] (serp_request (quote keyword) key)
   = inr (Response status html) ->
   run w (get_top_competitor html_parser quote keyword our_domain)
   = ([EvGetApiKey key_name; EvPost (serp_request (quote keyword) key)], None)) /\
  (http w [EvGetApiKey key_name] (unlocker_request (with_scheme url) key)
   = inr (Response status html) ->
   run w (fetch_html_content html_parser markup url)
   = ([EvGetApiKey key_name; EvPost (unlocker_request (with_scheme url) key);
       EvPrint [Str "Error from Brightdata API: "; Num status]],
      (with_scheme url, None))).
Proof.
  intros Ne K. apply Z.eqb_neq in Ne.
  split; [| split]; intros H.
  - unfold run, fetch_page_content. cbn [run_from]. rewrite K.
    cbn [run_from app]. rewrite H. cbn [status_code body]. now rewrite Ne.
  - unfold run, get_top_competitor. cbv zeta. cbn [run_from]. rewrite K.
    cbn [run_from app]. rewrite H. cbn [status_code body]. now rewrite Ne.
  - unfold run, fetch_html_content. cbv zeta. cbn [run_from]. rewrite K.
    cbn [run_from app]. rewrite H. cbn [status_code body]. now rewrite Ne.
Qed.

Lemma refused_requests_witness :
  run (steady "key" (Response 403 "denied") "reply")
      (fetch_page_content (fixed_parser plain_page) "https://site.com/post")
  = ([EvGetApiKey key_name;
      EvPost (unlocker_request "https://site.com/post" "key")], None).
Proof.
  refine (proj1 (refused_requests (fixed_parser plain_page) text id
                   (steady "key" (Response 403 "denied") "reply")
                   "https://site.com/post" "keyword" "site.com" "key" "denied"
                   403 _ _) _).
  - discriminate.
  - reflexivity.
  - reflexivity.
Defined.

End DiagnosticsExtras.

Module SearchExtras.
Import Py Re Metrics StringFacts ReFacts MetricsFacts.

Lemma length_append_one (pre : string) (c : ascii) :
  String.length (pre ++ String c EmptyString) = S (String.length pre).
Proof. rewrite length_append. simpl. lia. Qed.

(** X21.  The integer that the search for a metric picks up is a whole
    run of digits: it stands in the text right before the metric's label,
    and the character before it, when there is one, is not a digit. *)
Theorem score_is_a_whole_number (metric text ds : string) :
  search (label metric) text = Some ds ->
  exists pre post,
    text = pre ++ ds ++ label metric ++ post /\
    ds <> EmptyString /\ all_digits ds = true /\
    forall pre' c, pre = pre' ++ String c EmptyString -> is_digit c = false.
Proof.
  intros S. apply search_sound in S as (pre & (N & A & post & E) & Min);
    [| apply label_plain].
  exists pre, post. repeat split; auto.
  intros pre' c ->. destruct (is_digit c) eqn:D; [| reflexivity].
  assert (occurs_at (label metric) text pre' (String c ds)) as O.
  { split; [discriminate |]. split; [simpl; now rewrite D, A |].
    exists post. rewrite E, append_assoc. reflexivity. }
  apply Min in O. rewrite length_append_one in O. lia.
Qed.

Lemma score_is_a_whole_number_witness :
  exists pre post,
    ("x185" ++ label "Performance")
    = pre ++ "185" ++ label "Performance" ++ post /\
    "185" <> EmptyString /\ all_digits "185" = true /\
    forall pre' c, pre = pre' ++ String c EmptyString -> is_digit c = false.
Proof.
  apply (score_is_a_whole_number "Performance" ("x185" ++ label "Performance")).
  vm_compute. reflexivity.
Defined.

End SearchExtras.
